(** * GTLaundry: the user role-management protocol

    A shallow embedding of the role-transition gate of the GTLaundry
    back office and of the glue that calls it:

    - [supabase/users-schema-ultra-safe.sql]: the stored functions
      [promote_user_to_admin], [demote_admin_to_user], [get_all_users];
    - the older schema file (module [UsersSchema]), whose
      [promote_user_to_admin] accepts a narrower set of roles;
    - [src/app/api/admin/users/promote/route.ts] and the demote route:
      the HTTP forwarders;
    - [src/app/admin/users/page.tsx]: [fetchAdminUsers], [searchUsers],
      [handleSearch] and [handlePromote].

    Tables are finite maps keyed by their primary key, a stored function
    is a function from the database to an outcome (a result and the new
    database, or the error that aborts the transaction), and the
    TypeScript handlers are trees of requests whose replies are fed to a
    continuation. *)

From stdpp Require Import gmap strings list fin_maps sorting.
From Stdlib Require Import ZArith.

Local Open Scope Z_scope.
Local Open Scope string_scope.

(** ** The two tables *)

(** A [uuid] is kept as the string the TypeScript side handles. *)

(** [public.users]: one row per identity, keyed by [id].  The [metadata]
    column is read by none of the functions below and is left out. *)
Record users_row := {
  u_email : string;
  u_full_name : option string;
  u_avatar_url : option string;
  u_phone : option string;
  u_created_at : Z;
  u_updated_at : Z;
  u_last_sign_in_at : option Z;
  u_is_active : bool
}.

(** [public.admin_users].  The statement that creates the table is not
    among the sources; the columns are those the functions and scripts
    name, and [id] is a key, as [on conflict (id)] requires.  [role] is
    [text]: nothing in the sources restricts its values. *)
Record admin_users_row := {
  au_role : string;
  au_created_at : Z;
  au_updated_at : Z;
  au_created_by : option string
}.

Record Db := {
  users : gmap string users_row;
  admin_users : gmap string admin_users_row
}.

(** What a call sees besides the tables: [auth.uid()], which is [NULL]
    for an anonymous request, and [now()]. *)
Record session := {
  auth_uid : option string;
  now : Z
}.

(** ** Errors and outcomes *)

Inductive pg_error :=
| RaiseException (msg : string)   (* plpgsql [raise exception] *)
| UniqueViolation                 (* duplicate key on [admin_users.id] *)
| ForeignKeyViolation             (* [admin_users.id] without a [users] row *)
| AmbiguousColumn (name : string).
    (* 42702: a name that is a plpgsql variable and a column at once *)

(** The taxonomy of the specification, section 7. *)
Inductive error_kind := Unauthorized | Forbidden | NotFound | InvalidArgument.

Definition msg_only_super_admins_promote := "Only super_admins can promote users to admin".
Definition msg_only_super_admins_demote := "Only super_admins can demote users".
Definition msg_user_does_not_exist := "User does not exist".
Definition msg_untouchable := "Cannot modify super_admin role - super_admins are untouchable".
Definition msg_invalid_role := "Invalid role. Must be user, admin, or super_admin".
Definition msg_invalid_role_narrow := "Invalid role. Must be user or admin".
Definition msg_only_admins_view := "Only admins can view all users".

Definition kind_of_message (msg : string) : option error_kind :=
  if decide (msg = msg_only_super_admins_promote) then Some Unauthorized
  else if decide (msg = msg_only_super_admins_demote) then Some Unauthorized
  else if decide (msg = msg_only_admins_view) then Some Unauthorized
  else if decide (msg = msg_user_does_not_exist) then Some NotFound
  else if decide (msg = msg_untouchable) then Some Forbidden
  else if decide (msg = msg_invalid_role) then Some InvalidArgument
  else if decide (msg = msg_invalid_role_narrow) then Some InvalidArgument
  else None.

Definition kind_of (e : pg_error) : option error_kind :=
  match e with
  | RaiseException msg => kind_of_message msg
  | _ => None
  end.

(** A stored function either returns a value and the database it leaves,
    or aborts: the transaction is rolled back and the database is the one
    the call started from. *)
Inductive outcome (A : Type) :=
| Return (a : A) (db : Db)
| Abort (e : pg_error).
Arguments Return {A} a db.
Arguments Abort {A} e.

Definition db_after {A} (db : Db) (o : outcome A) : Db :=
  match o with
  | Return _ db' => db'
  | Abort _ => db
  end.

Definition succeeded {A} (o : outcome A) : bool :=
  match o with Return _ _ => true | Abort _ => false end.

(** ** Queries shared by the stored functions *)

(** [exists (select 1 from public.admin_users where id = i and role in (roles))];
    with [i] NULL the comparison selects no row. *)
Definition has_role_in (db : Db) (i : option string) (roles : list string) : bool :=
  match i with
  | None => false
  | Some k =>
      match admin_users db !! k with
      | Some r => bool_decide (au_role r ∈ roles)
      | None => false
      end
  end.

Definition is_super_admin (db : Db) (i : option string) : bool :=
  has_role_in db i ["super_admin"].

Definition user_exists (db : Db) (i : string) : bool :=
  bool_decide (is_Some (users db !! i)).

(** Modelled from the spec: the defaults of the columns [created_at] and
    [updated_at] of [admin_users] (creation and last-update timestamp),
    which the missing table declaration sets: the time of the insert. *)
Definition default_timestamp (s : session) : Z := now s.

(** [insert into public.admin_users (id, role, created_by) values (...)
     on conflict (id) do update set role = excluded.role,
     updated_at = now(), created_by = auth.uid()] *)
Definition upsert_admin (s : session) (target : string) (new_role : string)
    (t : gmap string admin_users_row) : gmap string admin_users_row :=
  match t !! target with
  | None =>
      <[target := {| au_role := new_role;
                     au_created_at := default_timestamp s;
                     au_updated_at := default_timestamp s;
                     au_created_by := auth_uid s |}]> t
  | Some r =>
      <[target := {| au_role := new_role;
                     au_created_at := au_created_at r;
                     au_updated_at := now s;
                     au_created_by := auth_uid s |}]> t
  end.

Definition set_admin_users (db : Db) (t : gmap string admin_users_row) : Db :=
  {| users := users db; admin_users := t |}.

(** ** The role-transition gate *)

(** [promote_user_to_admin], with the list of accepted roles and the
    message of the validation step left open: the two schema files differ
    in nothing else.  [new_role] is the argument as passed (it is 'admin'
    when the caller leaves it out); both arguments are taken non-NULL. *)
Definition promote_with (allowed : list string) (invalid_msg : string)
    (s : session) (target_user_id : string) (new_role : string) (db : Db)
    : outcome bool :=
  if negb (is_super_admin db (auth_uid s)) then
    Abort (RaiseException msg_only_super_admins_promote)
  else if negb (user_exists db target_user_id) then
    Abort (RaiseException msg_user_does_not_exist)
  else if is_super_admin db (Some target_user_id) then
    Abort (RaiseException msg_untouchable)
  else if negb (bool_decide (new_role ∈ allowed)) then
    Abort (RaiseException invalid_msg)
  else
    Return true
      (set_admin_users db (upsert_admin s target_user_id new_role (admin_users db))).

(** users-schema-ultra-safe.sql *)
Definition allowed_roles : list string := ["user"; "admin"; "super_admin"].

Definition promote_user_to_admin := promote_with allowed_roles msg_invalid_role.

Definition demote_admin_to_user (s : session) (target_user_id : string) (db : Db)
    : outcome bool :=
  if negb (is_super_admin db (auth_uid s)) then
    Abort (RaiseException msg_only_super_admins_demote)
  else if is_super_admin db (Some target_user_id) then
    Abort (RaiseException msg_untouchable)
  else
    Return true (set_admin_users db (delete target_user_id (admin_users db))).

(** The older schema file: same function, narrower validation. *)
Module UsersSchema.
Definition allowed_roles : list string := ["user"; "admin"].
Definition promote_user_to_admin := promote_with allowed_roles msg_invalid_role_narrow.
End UsersSchema.

(** *** [get_all_users] *)

Record all_users_row := {
  r_id : string;
  r_email : string;
  r_full_name : option string;
  r_avatar_url : option string;
  r_phone : option string;
  r_created_at : Z;
  r_last_sign_in_at : option Z;
  r_is_active : bool;
  r_admin_role : string;
  r_is_admin : bool
}.

(** One row of [public.users u left join public.admin_users au on u.id = au.id]. *)
Definition join_row (t : gmap string admin_users_row) (kv : string * users_row)
    : all_users_row :=
  let au := t !! kv.1 in
  {| r_id := kv.1;
     r_email := u_email kv.2;
     r_full_name := u_full_name kv.2;
     r_avatar_url := u_avatar_url kv.2;
     r_phone := u_phone kv.2;
     r_created_at := u_created_at kv.2;
     r_last_sign_in_at := u_last_sign_in_at kv.2;
     r_is_active := u_is_active kv.2;
     r_admin_role := default "user" (au_role <$> au);
     r_is_admin := bool_decide (is_Some au) |}.

(** [order by u.created_at desc]: [a] may come before [b]. *)
Definition newest_first (a b : all_users_row) : Prop :=
  (r_created_at b ≤ r_created_at a)%Z.

Global Instance newest_first_dec a b : Decision (newest_first a b).
Proof. unfold newest_first. apply _. Defined.

(** The columns of [returns table (...)].  Inside the body of the
    function each of them is a variable. *)
Definition get_all_users_columns : list string :=
  ["id"; "email"; "full_name"; "avatar_url"; "phone"; "created_at";
   "last_sign_in_at"; "is_active"; "admin_role"; "is_admin"].

(** The columns of [admin_users] that the sources name. *)
Definition admin_users_columns : list string :=
  ["id"; "role"; "created_at"; "updated_at"; "created_by"].

(** An unqualified name in a query of a plpgsql body: when it is both a
    variable of the function and a column of the table queried, the
    query is refused (plpgsql resolves no such conflict unless told to,
    and the functions do not tell it). *)
Definition unqualified_reference (variables columns : list string) (name : string)
    : option pg_error :=
  if bool_decide (name ∈ variables) && bool_decide (name ∈ columns)
  then Some (AmbiguousColumn name)
  else None.

(** The guard reads [where id = auth.uid() and role in (...)] from
    [admin_users], with [id] and [role] unqualified; the query that is
    returned qualifies every column.  Rows with equal [created_at] come
    in the order the sort leaves them; SQL promises none. *)
Definition get_all_users (s : session) (db : Db) : outcome (list all_users_row) :=
  match unqualified_reference get_all_users_columns admin_users_columns "id",
        unqualified_reference get_all_users_columns admin_users_columns "role" with
  | Some e, _ | None, Some e => Abort e
  | None, None =>
      if negb (has_role_in db (auth_uid s) ["admin"; "super_admin"]) then
        Abort (RaiseException msg_only_admins_view)
      else
        Return (merge_sort newest_first
                  (join_row (admin_users db) <$> map_to_list (users db))) db
  end.

(** ** The TypeScript side *)

(** An asynchronous handler is a tree: it either finishes with a value or
    issues a request and continues with the reply.  [E X] is the type of
    the requests answered by an [X]. *)
Inductive io (E : Type → Type) (A : Type) : Type :=
| Done (a : A)
| Call {X : Type} (e : E X) (k : X → io E A).
Arguments Done {E A} a.
Arguments Call {E A X} e k.

Fixpoint io_bind {E A B} (p : io E A) (f : A → io E B) : io E B :=
  match p with
  | Done a => f a
  | Call e k => Call e (λ x, io_bind (k x) f)
  end.

(** Running a handler against a world [W] that answers its requests:
    the value, the world left behind and the requests issued, in order. *)
Fixpoint run {E A W} (h : ∀ X, E X → W → X * W) (p : io E A) (w : W)
    : A * W * list (sigT E) :=
  match p with
  | Done a => (a, w, [])
  | Call e k =>
      let '(x, w1) := h _ e w in
      let '(a, w2, tr) := run h (k x) w1 in
      (a, w2, existT _ e :: tr)
  end.

(** *** JSON and JavaScript values *)

(** Numbers are kept as integers: only being zero matters below. *)
#[local] Unset Elimination Schemes.
Inductive json :=
| JNull
| JBool (b : bool)
| JNum (n : Z)
| JStr (s : string)
| JArr (items : list json)
| JObj (fields : list (string * json)).
#[local] Set Elimination Schemes.

(** [body.k] as destructuring reads it: [None] is [undefined].  When a
    key is repeated [JSON.parse] keeps the last value; the primitives and
    arrays have no own property of the names used here. *)
Definition get_field (body : json) (k : string) : option json :=
  match body with
  | JObj fields =>
      (λ hit : nat * (string * json), hit.2.2)
        <$> list_find (λ kv : string * json, kv.1 = k) (reverse fields)
  | _ => None
  end.

(** The values [!v] does not negate to [true]. *)
Definition truthy (v : option json) : bool :=
  match v with
  | None | Some JNull => false
  | Some (JBool b) => b
  | Some (JNum n) => negb (n =? 0)%Z
  | Some (JStr s) => negb (bool_decide (s = ""))
  | Some (JArr _) | Some (JObj _) => true
  end.

(** [list.includes(v)] for a list of strings. *)
Definition includes (l : list string) (v : option json) : bool :=
  match v with
  | Some (JStr s) => bool_decide (s ∈ l)
  | _ => false
  end.

(** [NextResponse.json(body, { status })]; the status is 200 when none is
    given. *)
Record response := {
  status : Z;
  body : json
}.

Definition error_response (msg : string) (st : Z) : response :=
  {| status := st; body := JObj [("error", JStr msg)] |}.

Definition success_response (msg : string) : response :=
  {| status := 200; body := JObj [("success", JBool true); ("message", JStr msg)] |}.

(** [supabase.rpc(fn, args)]: the promise resolves to [{ data, error }]
    or rejects. *)
Inductive rpc_reply :=
| RpcResolved (error : option string)
| RpcRejected.

Inductive rpcE : Type → Type :=
| Rpc (fn : string) (args : list (string * json)) : rpcE rpc_reply.

(** [const { ... } = await request.json()] inside [try]: a body that does
    not parse ([None]) and a body that is [null] both throw, the first in
    [request.json()], the second in the destructuring. *)
Definition destructured (request_body : option json) : option json :=
  match request_body with
  | None | Some JNull => None
  | Some b => Some b
  end.

(** src/app/api/admin/users/promote/route.ts *)
Module PromoteRoute.
Definition POST (request_body : option json) : io rpcE response :=
  match destructured request_body with
  | None => Done (error_response "Internal server error" 500)
  | Some b =>
      let userId := get_field b "userId" in
      let role := get_field b "role" in
      if negb (truthy userId) || negb (truthy role) then
        Done (error_response "Missing userId or role" 400)
      else if negb (includes ["user"; "admin"; "super_admin"] role) then
        Done (error_response "Invalid role. Must be user, admin, or super_admin" 400)
      else
        Call (Rpc "promote_user_to_admin"
                  [("target_user_id", default JNull userId);
                   ("new_role", default JNull role)])
          (λ reply,
            match reply with
            | RpcRejected => Done (error_response "Internal server error" 500)
            | RpcResolved (Some message) => Done (error_response message 400)
            | RpcResolved None =>
                Done (success_response
                  ("User successfully promoted to " +:+
                     match role with Some (JStr r) => r | _ => "" end))
            end)
  end.
End PromoteRoute.

(** The demote route. *)
Module DemoteRoute.
Definition POST (request_body : option json) : io rpcE response :=
  match destructured request_body with
  | None => Done (error_response "Internal server error" 500)
  | Some b =>
      let userId := get_field b "userId" in
      if negb (truthy userId) then
        Done (error_response "Missing userId" 400)
      else
        Call (Rpc "demote_admin_to_user"
                  [("target_user_id", default JNull userId)])
          (λ reply,
            match reply with
            | RpcRejected => Done (error_response "Internal server error" 500)
            | RpcResolved (Some message) => Done (error_response message 400)
            | RpcResolved None =>
                Done (success_response "User successfully demoted to regular user")
            end)
  end.
End DemoteRoute.

(** *** The admin page, src/app/admin/users/page.tsx *)

Record view_user := {
  vu_email : string;
  vu_full_name : option string;
  vu_created_at : Z;
  vu_last_sign_in_at : option Z;
  vu_is_active : bool
}.

(** The shape [fetchAdminUsers] gives each row of [get_all_users]. *)
Record admin_user_view := {
  v_id : string;
  v_role : string;
  v_created_at : Z;
  v_user : view_user
}.

Definition shape_row (r : all_users_row) : admin_user_view :=
  {| v_id := r_id r;
     v_role := r_admin_role r;
     v_created_at := r_created_at r;
     v_user := {| vu_email := r_email r;
                  vu_full_name := r_full_name r;
                  vu_created_at := r_created_at r;
                  vu_last_sign_in_at := r_last_sign_in_at r;
                  vu_is_active := r_is_active r |} |}.

(** [fetchAdminUsers], given what the [get_all_users] call came back
    with: [None] when it throws, and the query's [adminUsers] stays
    [undefined]. *)
Definition fetchAdminUsers (o : outcome (list all_users_row))
    : option (list admin_user_view) :=
  match o with
  | Abort _ => None
  | Return rows _ => Some (shape_row <$> rows)
  end.

(** An element of [searchResults]. *)
Record search_user := {
  su_id : string;
  su_email : option string;
  su_created_at : option Z
}.

(** What [fetch] and [response.json()] came back with: a rejection, or a
    response with its [ok] flag and the [users] member of its body. *)
Inductive fetch_reply :=
| FetchRejected
| FetchResponse (ok : bool) (users : option (list search_user)).

Inductive pageE : Type → Type :=
| FetchSearch (email : string) : pageE fetch_reply
    (* POST /api/admin/users/search { email } *)
| InsertAdminUsers (id role created_by : string) : pageE (option pg_error)
    (* supabase.from('admin_users').insert({ id, role, created_by }) *)
| InsertAuditLog (admin_id action target_type target_id new_role : string)
    : pageE (option pg_error)
    (* supabase.from('admin_audit_log').insert({ ... }) *)
| InvalidateQueries (key : string) : pageE unit
| ConsoleError (msg : string) (detail : option pg_error) : pageE unit
| Alert (msg : string) : pageE unit.

(** [email.length] is counted in characters of the Rocq string. *)
Definition searchUsers (email : string) : io pageE (list search_user) :=
  if bool_decide (email = "") || (String.length email <? 3)%nat then Done []
  else
    Call (FetchSearch email)
      (λ reply,
        match reply with
        | FetchResponse true users => Done (default [] users)
        | FetchResponse false _ | FetchRejected =>
            Call (ConsoleError "Error searching users:" None) (λ _, Done [])
        end).

(** [handleSearch]; the value is the list handed to [setSearchResults].
    The other state setters ([setSearchEmail], [setIsSearching]) are left
    out. *)
Definition handleSearch (adminUsers : option (list admin_user_view)) (email : string)
    : io pageE (list search_user) :=
  if (String.length email <? 3)%nat then Done []
  else
    io_bind (searchUsers email)
      (λ users,
        let existingAdminIds : list string :=
          match adminUsers with
          | Some l => v_id <$> l
          | None => []
          end in
        Done (filter (λ u, su_id u ∉ existingAdminIds) users)).

(** [adminUsers?.find(au => au.id === id)?.role] *)
Definition current_user_role (adminUsers : option (list admin_user_view)) (id : string)
    : option string :=
  adminUsers ≫= (λ l, (λ hit : nat * admin_user_view, v_role hit.2)
                         <$> list_find (λ au, v_id au = id) l).

Definition promoted_label (role : string) : string :=
  if bool_decide (role = "super_admin") then "Super Admin" else "Admin".

(** [handlePromote]; [user] is the id of the signed-in user, [None] when
    there is none.  The modal's state setters are left out. *)
Definition handlePromote (user : option string)
    (adminUsers : option (list admin_user_view)) (userId role : string)
    : io pageE unit :=
  match user with
  | None => Done ()
  | Some uid =>
      if negb (bool_decide (current_user_role adminUsers uid = Some "super_admin")) then
        Call (Alert "Only super admins can promote users to admin roles.") (λ _, Done ())
      else
        Call (InsertAdminUsers userId role uid)
          (λ adminError,
            match adminError with
            | Some e =>
                Call (ConsoleError "Error promoting user:" (Some e))
                  (λ _, Call (Alert "Error promoting user. Please try again.")
                  (λ _, Done ()))
            | None =>
                Call (InsertAuditLog uid "promote_user" "user" userId role)
                  (λ auditError,
                    let finish :=
                      Call (InvalidateQueries "admin-users")
                        (λ _, Call (Alert ("User successfully promoted to "
                                            +:+ promoted_label role +:+ "!"))
                        (λ _, Done ())) in
                    match auditError with
                    | Some e => Call (ConsoleError "Audit log error:" (Some e)) (λ _, finish)
                    | None => finish
                    end)
            end)
  end.

(** *** The store behind the page *)

(** [insert into admin_users (id, role, created_by)] issued by the
    browser client: [id] is a key, and the older schema file makes it
    reference [public.users].  The row-level policies of [admin_users]
    are in no source file; the insert is taken to pass them. *)
Definition insert_admin_users (s : session) (id role created_by : string) (db : Db)
    : option pg_error * Db :=
  if bool_decide (is_Some (admin_users db !! id)) then (Some UniqueViolation, db)
  else if negb (user_exists db id) then (Some ForeignKeyViolation, db)
  else
    (None,
     set_admin_users db
       (<[id := {| au_role := role;
                   au_created_at := default_timestamp s;
                   au_updated_at := default_timestamp s;
                   au_created_by := Some created_by |}]> (admin_users db))).

(** ASCII lower case, for a comparison that ignores case. *)
Definition lower_ascii (c : Ascii.ascii) : Ascii.ascii :=
  let n := Ascii.nat_of_ascii c in
  if (65 <=? n)%nat && (n <=? 90)%nat then Ascii.ascii_of_nat (n + 32) else c.

Fixpoint lower (s : string) : string :=
  match s with
  | EmptyString => EmptyString
  | String c s' => String (lower_ascii c) (lower s')
  end.

Fixpoint contains (q s : string) : bool :=
  String.prefix q s ||
  match s with
  | EmptyString => false
  | String _ s' => contains q s'
  end.

(** Modelled from the spec: the search route [/api/admin/users/search],
    which [searchUsers] calls and no source file holds.  It answers with
    the Users whose email matches the query, ignoring case, as a
    substring. *)
Definition search_route (q : string) (db : Db) : fetch_reply :=
  FetchResponse true
    (Some ((λ kv : string * users_row,
              {| su_id := kv.1;
                 su_email := Some (u_email kv.2);
                 su_created_at := Some (u_created_at kv.2) |})
           <$> filter (λ kv : string * users_row,
                         contains (lower q) (lower (u_email kv.2)) = true)
                      (map_to_list (users db)))).

Section PageWorld.
(** The browser's session, and the two collaborators that no source
    file holds: the search route and the audit-log table. *)
Variable s : session.
Variable search : string → Db → fetch_reply.
Variable audit : string → string → string → string → string → option pg_error.

Definition page_world (X : Type) (e : pageE X) (db : Db) : X * Db :=
  match e in pageE T return T * Db with
  | FetchSearch email => (search email db, db)
  | InsertAdminUsers id role created_by => insert_admin_users s id role created_by db
  | InsertAuditLog a b c d r => (audit a b c d r, db)
  | InvalidateQueries _ => ((), db)
  | ConsoleError _ _ => ((), db)
  | Alert _ => ((), db)
  end.
End PageWorld.

(** ** Vocabulary of the statements *)

(** User [u] holds a RoleAssignment with role [role]. *)
Definition holds_role (db : Db) (u : string) (role : string) : Prop :=
  ∃ r, admin_users db !! u = Some r ∧ au_role r = role.

Definition failure_kind {A} (o : outcome A) : option error_kind :=
  match o with
  | Abort e => kind_of e
  | Return _ _ => None
  end.

(** Every row of [admin_users] carries a role of the list [L]. *)
Definition roles_within (L : list string) (db : Db) : Prop :=
  map_Forall (λ _ r, au_role r ∈ L) (admin_users db).

Global Instance roles_within_dec L db : Decision (roles_within L db).
Proof. unfold roles_within. apply _. Defined.

(** ** The database behind the routes *)

(** The database answering the calls of the routes, under the session
    the server client carries. Only [raise exception] occurs in the gate;
    its message is what [error.message] holds. A target that is no string
    cannot be read as a [uuid], and the call is answered with an error. *)
Definition pg_message (e : pg_error) : string :=
  match e with
  | RaiseException msg => msg
  | UniqueViolation => "duplicate key value violates unique constraint"
  | ForeignKeyViolation => "insert or update on table violates foreign key constraint"
  | AmbiguousColumn name => "column reference " +:+ name +:+ " is ambiguous"
  end.

Definition msg_bad_uuid := "invalid input syntax for type uuid".

Definition rpc_reply_of {A} (db : Db) (o : outcome A) : rpc_reply * Db :=
  match o with
  | Return _ db' => (RpcResolved None, db')
  | Abort e => (RpcResolved (Some (pg_message e)), db)
  end.

Definition rpc_arg (args : list (string * json)) (k : string) : option json :=
  (λ hit : nat * (string * json), hit.2.2)
    <$> list_find (λ kv : string * json, kv.1 = k) args.

Definition gate_rpc (s : session) (X : Type) (e : rpcE X) (db : Db) : X * Db :=
  match e in rpcE T return T * Db with
  | Rpc fn args =>
      if bool_decide (fn = "promote_user_to_admin") then
        match rpc_arg args "target_user_id", rpc_arg args "new_role" with
        | Some (JStr t), Some (JStr r) =>
            rpc_reply_of db (promote_user_to_admin s t r db)
        | _, _ => (RpcResolved (Some msg_bad_uuid), db)
        end
      else if bool_decide (fn = "demote_admin_to_user") then
        match rpc_arg args "target_user_id" with
        | Some (JStr t) => rpc_reply_of db (demote_admin_to_user s t db)
        | _ => (RpcResolved (Some msg_bad_uuid), db)
        end
      else (RpcRejected, db)
  end.

(** What a route makes of the reply to its one call. *)
Definition forwarded (success_msg : string) (reply : rpc_reply) : response :=
  match reply with
  | RpcResolved (Some message) =>
      {| status := 400; body := JObj [("error", JStr message)] |}
  | RpcResolved None =>
      {| status := 200;
         body := JObj [("success", JBool true); ("message", JStr success_msg)] |}
  | RpcRejected =>
      {| status := 500; body := JObj [("error", JStr "Internal server error")] |}
  end.

(** ** Example database

    [root] and [owner] are super_admins, [alice] is an admin, [bob] and
    [carol] hold no role; [ghost] holds a super_admin row without a
    [users] row. *)
Module Sample.
Definition person (email : string) (t : Z) : users_row :=
  {| u_email := email; u_full_name := None; u_avatar_url := None;
     u_phone := None; u_created_at := t; u_updated_at := t;
     u_last_sign_in_at := None; u_is_active := true |}.

Definition grant (role : string) (t : Z) (by_ : option string) : admin_users_row :=
  {| au_role := role; au_created_at := t; au_updated_at := t; au_created_by := by_ |}.

Definition db : Db :=
  {| users :=
       <["root" := person "root@x.com" 1]>
       (<["owner" := person "owner@x.com" 2]>
       (<["alice" := person "alice@x.com" 3]>
       (<["bob" := person "bob@x.com" 4]>
       (<["carol" := person "carol@x.com" 4]> ∅))));
     admin_users :=
       <["root" := grant "super_admin" 1 None]>
       (<["owner" := grant "super_admin" 2 (Some "root")]>
       (<["alice" := grant "admin" 3 (Some "root")]>
       (<["ghost" := grant "super_admin" 3 None]> ∅))) |}.

Definition as_user (u : string) (t : Z) : session :=
  {| auth_uid := Some u; now := t |}.
Definition anonymous (t : Z) : session :=
  {| auth_uid := None; now := t |}.

(** A directory for the search: two users without a role, and [root],
    a super_admin, who runs the admin page. *)
Definition directory : Db :=
  {| users :=
       <["root" := person "root@x.com" 1]>
       (<["u-abc" := person "abcuser@x.com" 2]>
       (<["u-xyz" := person "xyz@x.com" 3]> ∅));
     admin_users := <["root" := grant "super_admin" 1 None]> ∅ |}.

(** A request body for the promote route. *)
Definition promote_bob : json := JObj [("userId", JStr "bob"); ("role", JStr "admin")].
End Sample.

(** * The rest of the code *)

(** ** Triggers and migration of users-schema-ultra-safe.sql *)

(** A row of [auth.users], the table of the identity provider, as the
    triggers read it.  [raw_user_meta_data] is seen only through
    [->> key], which gives the text under the key or NULL. *)
Record auth_users_row := {
  a_email : string;
  a_raw_user_meta_data : string → option string;
  a_phone : option string;
  a_created_at : Z;
  a_updated_at : Z;
  a_last_sign_in_at : option Z
}.

(** The row that [handle_new_user] and the migration build from an
    identity; [is_active] takes its default. *)
Definition users_row_of (a : auth_users_row) : users_row :=
  {| u_email := a_email a;
     u_full_name := a_raw_user_meta_data a "full_name";
     u_avatar_url := a_raw_user_meta_data a "avatar_url";
     u_phone := a_phone a;
     u_created_at := a_created_at a;
     u_updated_at := a_updated_at a;
     u_last_sign_in_at := a_last_sign_in_at a;
     u_is_active := true |}.

Definition set_users (db : Db) (t : gmap string users_row) : Db :=
  {| users := t; admin_users := admin_users db |}.

(** [handle_new_user], fired after an insert on [auth.users]: a plain
    insert, which the key on [id] refuses when the row is there. *)
Definition handle_new_user (new_id : string) (new : auth_users_row) (db : Db)
    : outcome unit :=
  match users db !! new_id with
  | Some _ => Abort UniqueViolation
  | None => Return () (set_users db (<[new_id := users_row_of new]> (users db)))
  end.

(** [handle_user_signin], fired after an update of [last_sign_in_at]:
    [update public.users set last_sign_in_at = new.last_sign_in_at,
     updated_at = now() where id = new.id]. *)
Definition handle_user_signin (s : session) (new_id : string) (new : auth_users_row)
    (db : Db) : outcome unit :=
  Return ()
    (set_users db
       (alter (λ u, {| u_email := u_email u;
                       u_full_name := u_full_name u;
                       u_avatar_url := u_avatar_url u;
                       u_phone := u_phone u;
                       u_created_at := u_created_at u;
                       u_updated_at := now s;
                       u_last_sign_in_at := a_last_sign_in_at new;
                       u_is_active := u_is_active u |})
              new_id (users db))).

(** The migration at the end of the file:
    [insert into public.users (...) select ... from auth.users
     where id not in (select id from public.users)
     on conflict (id) do nothing]. *)
Definition migrate_users (auth : gmap string auth_users_row) (db : Db) : Db :=
  set_users db
    (users db ∪
     (users_row_of <$> filter (λ kv : string * auth_users_row,
                                 users db !! kv.1 = None) auth)).

(** ** setup-users-and-admin.js *)

(** [.from('admin_users').select('id, role').order('created_at')]: the
    ids, oldest row first. *)
Definition oldest_first (a b : string * admin_users_row) : Prop :=
  (au_created_at a.2 ≤ au_created_at b.2)%Z.

Global Instance oldest_first_dec a b : Decision (oldest_first a b).
Proof. unfold oldest_first. apply _. Defined.

Definition existing_admins (db : Db) : list string :=
  (merge_sort oldest_first (map_to_list (admin_users db))).*1.

(** [existingAdmins[0]?.id || null] *)
Definition first_admin (existingAdmins : list string) : option string :=
  match existingAdmins with
  | [] => None
  | i :: _ => if bool_decide (i = "") then None else Some i
  end.

(** [.from('admin_users').upsert({ id, role, created_by }, { onConflict: 'id' })]
    under the service key: on a conflict the listed columns are
    rewritten; a target without a [users] row breaks the foreign key of
    the older schema file. *)
Definition service_upsert (s : session) (id role : string) (created_by : option string)
    (db : Db) : option pg_error * Db :=
  match admin_users db !! id with
  | Some r =>
      (None,
       set_admin_users db
         (<[id := {| au_role := role; au_created_at := au_created_at r;
                     au_updated_at := au_updated_at r;
                     au_created_by := created_by |}]> (admin_users db)))
  | None =>
      if negb (user_exists db id) then (Some ForeignKeyViolation, db)
      else
        (None,
         set_admin_users db
           (<[id := {| au_role := role;
                       au_created_at := default_timestamp s;
                       au_updated_at := default_timestamp s;
                       au_created_by := created_by |}]> (admin_users db)))
  end.

(** The loop over [nonAdminUsers]: an upsert that fails is reported and
    the loop goes on.  The value lists the ids with the error of each. *)
Fixpoint promote_all (s : session) (created_by : option string) (ids : list string)
    (db : Db) : list (string * option pg_error) * Db :=
  match ids with
  | [] => ([], db)
  | i :: rest =>
      let '(e, db1) := service_upsert s i "super_admin" created_by db in
      let '(log, db2) := promote_all s created_by rest db1 in
      ((i, e) :: log, db2)
  end.

(** [setupUsersAndAdmins], given the ids that [auth.admin.listUsers()]
    returned; the three queries of the script are taken to succeed.  With
    no identity at all the script stops before it writes. *)
Definition setupUsersAndAdmins (s : session) (authUsers : list string) (db : Db)
    : list (string * option pg_error) * Db :=
  match authUsers with
  | [] => ([], db)
  | _ =>
      let existingAdmins := existing_admins db in
      let nonAdminUsers := filter (λ i, i ∉ existingAdmins) authUsers in
      promote_all s (first_admin existingAdmins) nonAdminUsers db
  end.

(** ** The list route, src/app/api/admin/users/list/route.ts *)

(** [supabase.rpc('get_all_users')]: [{ data, error }], or a rejection. *)
Inductive rows_reply :=
| RowsResolved (data : option (list all_users_row)) (error : option string)
| RowsRejected.

Inductive listE : Type → Type :=
| RpcRows (fn : string) : listE rows_reply.

Definition json_of_option {A} (f : A → json) (o : option A) : json :=
  match o with
  | Some a => f a
  | None => JNull
  end.

(** One element of [adminUsers] in the answer; a timestamp is written
    as a number. *)
Definition list_entry (user : all_users_row) : json :=
  JObj [("id", JStr (r_id user));
        ("role", JStr (r_admin_role user));
        ("created_at", JNum (r_created_at user));
        ("updated_at", JNum (r_created_at user));
        ("user", JObj [("email", JStr (r_email user));
                       ("full_name", json_of_option JStr (r_full_name user));
                       ("created_at", JNum (r_created_at user));
                       ("last_sign_in_at", json_of_option JNum (r_last_sign_in_at user));
                       ("is_active", JBool (r_is_active user))])].

Module ListRoute.
Definition GET : io listE response :=
  Call (RpcRows "get_all_users")
    (λ reply,
      match reply with
      | RowsRejected => Done (error_response "Internal server error" 500)
      | RowsResolved _ (Some _) => Done (error_response "Failed to fetch users" 500)
      | RowsResolved None None =>
          (* [allUsers.map] on [null] throws *)
          Done (error_response "Internal server error" 500)
      | RowsResolved (Some allUsers) None =>
          Done {| status := 200;
                  body := JObj [("adminUsers", JArr (list_entry <$> allUsers))] |}
      end).
End ListRoute.

(** The database answering the list route. *)
Definition gate_rows (s : session) (X : Type) (e : listE X) (db : Db) : X * Db :=
  match e in listE T return T * Db with
  | RpcRows fn =>
      if bool_decide (fn = "get_all_users") then
        match get_all_users s db with
        | Return rows db' => (RowsResolved (Some rows) None, db')
        | Abort e => (RowsResolved None (Some (pg_message e)), db)
        end
      else (RowsRejected, db)
  end.

(** ** The admin page: the buttons of the list *)

(** What the page sees of an answer of a route: [response.ok] and
    [data.error] when the body carries one; or the message of the error
    that [fetch] or [response.json()] threw. *)
Inductive route_reply :=
| RouteAnswered (ok : bool) (error : option string)
| RouteThrew (message : string).

Inductive uiE : Type → Type :=
| FetchRoute (url : string) (body : json) : uiE route_reply
| UiInvalidateQueries (key : string) : uiE unit
| UiConsoleError (msg : string) (detail : string) : uiE unit
| UiAlert (msg : string) : uiE unit.

(** [data.error || fallback] *)
Definition error_or (error : option string) (fallback : string) : string :=
  match error with
  | Some m => if bool_decide (m = "") then fallback else m
  | None => fallback
  end.

(** The [catch] of both handlers. *)
Definition report_failure (label message : string) : io uiE unit :=
  Call (UiConsoleError label message)
    (λ _, Call (UiAlert ("Error: " +:+ message)) (λ _, Done ())).

(** [handlePromoteUser]; the state setters are left out. *)
Definition handlePromoteUser (userId role : string) : io uiE unit :=
  Call (FetchRoute "/api/admin/users/promote"
          (JObj [("userId", JStr userId); ("role", JStr role)]))
    (λ reply,
      match reply with
      | RouteThrew message => report_failure "Error promoting user:" message
      | RouteAnswered false error =>
          report_failure "Error promoting user:" (error_or error "Failed to promote user")
      | RouteAnswered true _ =>
          Call (UiInvalidateQueries "admin-users")
            (λ _, Call (UiAlert ("User successfully promoted to " +:+ role +:+ "!"))
            (λ _, Done ()))
      end).

(** [handleDemoteUser] *)
Definition handleDemoteUser (userId : string) : io uiE unit :=
  Call (FetchRoute "/api/admin/users/demote" (JObj [("userId", JStr userId)]))
    (λ reply,
      match reply with
      | RouteThrew message => report_failure "Error demoting user:" message
      | RouteAnswered false error =>
          report_failure "Error demoting user:" (error_or error "Failed to demote user")
      | RouteAnswered true _ =>
          Call (UiInvalidateQueries "admin-users")
            (λ _, Call (UiAlert "User successfully demoted to regular user!")
            (λ _, Done ()))
      end).

(** [response.ok] *)
Definition response_ok (r : response) : bool :=
  (200 <=? status r)%Z && (status r <=? 299)%Z.

Definition route_reply_of (r : response) : route_reply :=
  RouteAnswered (response_ok r)
    match get_field (body r) "error" with
    | Some (JStr m) => Some m
    | _ => None
    end.

(** The two routes behind [fetch], each running against the database
    under the session of the server client. *)
Definition ui_world (s : session) (X : Type) (e : uiE X) (db : Db) : X * Db :=
  match e in uiE T return T * Db with
  | FetchRoute url b =>
      if bool_decide (url = "/api/admin/users/promote") then
        let '(r, db', _) := run (gate_rpc s) (PromoteRoute.POST (Some b)) db in
        (route_reply_of r, db')
      else if bool_decide (url = "/api/admin/users/demote") then
        let '(r, db', _) := run (gate_rpc s) (DemoteRoute.POST (Some b)) db in
        (route_reply_of r, db')
      else (RouteThrew "Failed to fetch", db)
  | UiInvalidateQueries _ => ((), db)
  | UiConsoleError _ _ => ((), db)
  | UiAlert _ => ((), db)
  end.

(** ** The admin page: [filteredUsers] *)

(** [Array.prototype.sort] with a comparator: a stable sort.  [cmp a b]
    is the number the comparator returns. *)
Fixpoint sort_insert {A} (cmp : A → A → Z) (x : A) (l : list A) : list A :=
  match l with
  | [] => [x]
  | y :: l' => if (cmp x y <=? 0)%Z then x :: y :: l' else y :: sort_insert cmp x l'
  end.

Fixpoint array_sort {A} (cmp : A → A → Z) (l : list A) : list A :=
  match l with
  | [] => []
  | x :: l' => sort_insert cmp x (array_sort cmp l')
  end.

Section FilteredUsers.
(** [String.prototype.localeCompare], which depends on the locale of the
    browser. *)
Variable localeCompare : string → string → Z.

(** The comparator of the [switch]. *)
Definition compare_by (sortBy : string) (a b : admin_user_view) : Z :=
  if bool_decide (sortBy = "newest") then (v_created_at b - v_created_at a)%Z
  else if bool_decide (sortBy = "oldest") then (v_created_at a - v_created_at b)%Z
  else if bool_decide (sortBy = "email") then
    localeCompare (vu_email (v_user a)) (vu_email (v_user b))
  else if bool_decide (sortBy = "role") then localeCompare (v_role a) (v_role b)
  else 0%Z.

(** [filteredUsers]: the list shown, and [adminUsers] as the call leaves
    it.  [sort] works in place: when no role is selected the array that
    is sorted is [adminUsers] itself. *)
Definition filteredUsers (adminUsers : option (list admin_user_view))
    (filterRole sortBy : string)
    : list admin_user_view * option (list admin_user_view) :=
  match adminUsers with
  | None => ([], None)
  | Some l =>
      if bool_decide (filterRole = "all") then
        let sorted := array_sort (compare_by sortBy) l in
        (sorted, Some sorted)
      else
        (array_sort (compare_by sortBy) (filter (λ au, v_role au = filterRole) l),
         Some l)
  end.
End FilteredUsers.

(** ** Every write the system makes *)

Inductive op :=
| OpPromote (s : session) (target new_role : string)
| OpDemote (s : session) (target : string)
| OpModalPromote (s : session) (search : string → Db → fetch_reply)
    (audit : string → string → string → string → string → option pg_error)
    (user : option string) (adminUsers : option (list admin_user_view))
    (userId role : string)
| OpNewUser (new_id : string) (new : auth_users_row)
| OpSignin (s : session) (new_id : string) (new : auth_users_row)
| OpMigrate (auth : gmap string auth_users_row)
| OpSetup (s : session) (authUsers : list string).

Definition apply_op (o : op) (db : Db) : Db :=
  match o with
  | OpPromote s target new_role => db_after db (promote_user_to_admin s target new_role db)
  | OpDemote s target => db_after db (demote_admin_to_user s target db)
  | OpModalPromote s search audit user adminUsers userId role =>
      (run (page_world s search audit)
           (handlePromote user adminUsers userId role) db).1.2
  | OpNewUser new_id new => db_after db (handle_new_user new_id new db)
  | OpSignin s new_id new => db_after db (handle_user_signin s new_id new db)
  | OpMigrate auth => migrate_users auth db
  | OpSetup s authUsers => (setupUsersAndAdmins s authUsers db).2
  end.

Definition apply_ops (ops : list op) (db : Db) : Db :=
  foldl (λ d o, apply_op o d) db ops.

(** The calls of the role-transition gate among the operations. *)
Definition is_gate_call (o : op) : bool :=
  match o with
  | OpPromote _ _ _ | OpDemote _ _ => true
  | _ => false
  end.

(** The writes that look up the [users] row themselves, or write no
    RoleAssignment: all but the modal's insert and the setup script,
    which leave that to the foreign key of the older schema file. *)
Definition checks_directory (o : op) : bool :=
  match o with
  | OpModalPromote _ _ _ _ _ _ _ | OpSetup _ _ => false
  | _ => true
  end.

(** A row of [admin_users] as the setup script writes it. *)
Definition script_row (cb : option string) (db : Db) (i : string) : Prop :=
  ∃ r, admin_users db !! i = Some r
       ∧ au_role r = "super_admin" ∧ au_created_by r = cb.

(** Every RoleAssignment belongs to a User of the Directory. *)
Definition registry_in_directory (db : Db) : Prop :=
  ∀ k, is_Some (admin_users db !! k) → is_Some (users db !! k).

(** ** Further examples *)
Module Scenario.
(** A value for [adminUsers]: one entry for each user of the sample
    database with the role the registry gives, newest first. *)
Definition entry (id role email : string) (t : Z) : admin_user_view :=
  {| v_id := id; v_role := role; v_created_at := t;
     v_user := {| vu_email := email; vu_full_name := None; vu_created_at := t;
                  vu_last_sign_in_at := None; vu_is_active := true |} |}.

Definition admin_page : list admin_user_view :=
  [entry "bob" "user" "bob@x.com" 4;
   entry "carol" "user" "carol@x.com" 4;
   entry "alice" "admin" "alice@x.com" 3;
   entry "owner" "super_admin" "owner@x.com" 2;
   entry "root" "super_admin" "root@x.com" 1].

(** A database in which [alice] is an admin, [bob] carries a role that
    is none of the three, and nobody is a super_admin. *)
Definition no_super_admin : Db :=
  {| users := users Sample.db;
     admin_users :=
       <["alice" := Sample.grant "admin" 3 None]>
       (<["bob" := Sample.grant "boss" 4 None]> ∅) |}.


(** An identity that has just signed up. *)
Definition dave : auth_users_row :=
  {| a_email := "dave@x.com";
     a_raw_user_meta_data :=
       λ key, if bool_decide (key = "full_name") then Some "Dave" else None;
     a_phone := None;
     a_created_at := 20;
     a_updated_at := 20;
     a_last_sign_in_at := None |}.

(** [auth.users] with [root], who has a [users] row in the sample
    directory, and [dave], who has none. *)
Definition identities : gmap string auth_users_row :=
  <["root" := {| a_email := "root@elsewhere.com";
                 a_raw_user_meta_data := λ _, None;
                 a_phone := None; a_created_at := 1; a_updated_at := 1;
                 a_last_sign_in_at := None |}]>
  (<["dave" := dave]> ∅).
End Scenario.

(** * Properties *)

(** ** Reading the Role Registry *)

Lemma has_role_in_true db c roles :
  has_role_in db (Some c) roles = true ↔ ∃ role, role ∈ roles ∧ holds_role db c role.
Proof.
  unfold has_role_in, holds_role. split.
  - destruct (admin_users db !! c) as [r|] eqn:Hr; [|done].
    intros Hin%bool_decide_eq_true. eauto.
  - intros (role & Hin & r & -> & <-). by apply bool_decide_eq_true.
Qed.

Lemma has_role_in_anonymous db roles : has_role_in db None roles = false.
Proof. done. Qed.

Lemma is_super_admin_true db c :
  is_super_admin db (Some c) = true ↔ holds_role db c "super_admin".
Proof.
  unfold is_super_admin. rewrite has_role_in_true. split.
  - intros (role & Hin & Hr). by apply list_elem_of_singleton in Hin as ->.
  - intros Hr. exists "super_admin". split; [apply list_elem_of_singleton|]; done.
Qed.

Lemma is_super_admin_false db c :
  is_super_admin db (Some c) = false ↔ ¬ holds_role db c "super_admin".
Proof. rewrite <-is_super_admin_true. by destruct (is_super_admin db (Some c)). Qed.

Lemma set_admin_users_id db : set_admin_users db (admin_users db) = db.
Proof. by destruct db. Qed.

(** ** The guards of [promote_user_to_admin] and [demote_admin_to_user],
       in the order the functions take them *)

Section Guards.
Context (allowed : list string) (invalid_msg : string).
Context (s : session) (db : Db) (target : string) (new_role : string).

Lemma promote_with_unauthorized :
  is_super_admin db (auth_uid s) = false →
  promote_with allowed invalid_msg s target new_role db
  = Abort (RaiseException msg_only_super_admins_promote).
Proof. unfold promote_with. by intros ->. Qed.

Lemma promote_with_not_found :
  is_super_admin db (auth_uid s) = true →
  user_exists db target = false →
  promote_with allowed invalid_msg s target new_role db
  = Abort (RaiseException msg_user_does_not_exist).
Proof. unfold promote_with. by intros -> ->. Qed.

Lemma promote_with_untouchable :
  is_super_admin db (auth_uid s) = true →
  user_exists db target = true →
  is_super_admin db (Some target) = true →
  promote_with allowed invalid_msg s target new_role db
  = Abort (RaiseException msg_untouchable).
Proof. unfold promote_with. by intros -> -> ->. Qed.

Lemma promote_with_invalid :
  is_super_admin db (auth_uid s) = true →
  user_exists db target = true →
  is_super_admin db (Some target) = false →
  new_role ∉ allowed →
  promote_with allowed invalid_msg s target new_role db
  = Abort (RaiseException invalid_msg).
Proof.
  unfold promote_with. intros -> -> -> Hr.
  by rewrite bool_decide_eq_false_2.
Qed.

Lemma promote_with_ok :
  is_super_admin db (auth_uid s) = true →
  user_exists db target = true →
  is_super_admin db (Some target) = false →
  new_role ∈ allowed →
  promote_with allowed invalid_msg s target new_role db
  = Return true
      (set_admin_users db (upsert_admin s target new_role (admin_users db))).
Proof.
  unfold promote_with. intros -> -> -> Hr.
  by rewrite bool_decide_eq_true_2.
Qed.

(** Whatever the arguments, the call ends in one of the five ways. *)
Lemma promote_with_cases :
  let o := promote_with allowed invalid_msg s target new_role db in
  (is_super_admin db (auth_uid s) = false
     ∧ o = Abort (RaiseException msg_only_super_admins_promote))
  ∨ (is_super_admin db (auth_uid s) = true ∧ user_exists db target = false
     ∧ o = Abort (RaiseException msg_user_does_not_exist))
  ∨ (is_super_admin db (auth_uid s) = true ∧ user_exists db target = true
     ∧ is_super_admin db (Some target) = true
     ∧ o = Abort (RaiseException msg_untouchable))
  ∨ (is_super_admin db (auth_uid s) = true ∧ user_exists db target = true
     ∧ is_super_admin db (Some target) = false ∧ (new_role ∉ allowed)
     ∧ o = Abort (RaiseException invalid_msg))
  ∨ (is_super_admin db (auth_uid s) = true ∧ user_exists db target = true
     ∧ is_super_admin db (Some target) = false ∧ new_role ∈ allowed
     ∧ o = Return true
             (set_admin_users db (upsert_admin s target new_role (admin_users db)))).
Proof.
  intros o. subst o.
  destruct (is_super_admin db (auth_uid s)) eqn:Hc;
    [|left; eauto using promote_with_unauthorized].
  destruct (user_exists db target) eqn:Hu;
    [|right; left; eauto using promote_with_not_found].
  destruct (is_super_admin db (Some target)) eqn:Ht;
    [right; right; left; eauto 6 using promote_with_untouchable|].
  destruct (decide (new_role ∈ allowed)).
  - do 4 right. eauto 8 using promote_with_ok.
  - do 3 right. left. eauto 8 using promote_with_invalid.
Qed.

Lemma demote_unauthorized :
  is_super_admin db (auth_uid s) = false →
  demote_admin_to_user s target db
  = Abort (RaiseException msg_only_super_admins_demote).
Proof. unfold demote_admin_to_user. by intros ->. Qed.

Lemma demote_untouchable :
  is_super_admin db (auth_uid s) = true →
  is_super_admin db (Some target) = true →
  demote_admin_to_user s target db = Abort (RaiseException msg_untouchable).
Proof. unfold demote_admin_to_user. by intros -> ->. Qed.

Lemma demote_ok :
  is_super_admin db (auth_uid s) = true →
  is_super_admin db (Some target) = false →
  demote_admin_to_user s target db
  = Return true (set_admin_users db (delete target (admin_users db))).
Proof. unfold demote_admin_to_user. by intros -> ->. Qed.
End Guards.

(** ** Callers that are not super_admin *)

(** C2. A caller that holds no super_admin RoleAssignment (an anonymous
    caller included) gets the Unauthorized error from promote and from
    demote, for every target and every role, and the database is the one
    before the call. *)
Theorem non_super_admin_caller_unauthorized
    (s : session) (db : Db) (target new_role : string) :
  is_super_admin db (auth_uid s) = false →
  promote_user_to_admin s target new_role db
    = Abort (RaiseException msg_only_super_admins_promote)
  ∧ demote_admin_to_user s target db
    = Abort (RaiseException msg_only_super_admins_demote)
  ∧ failure_kind (promote_user_to_admin s target new_role db) = Some Unauthorized
  ∧ failure_kind (demote_admin_to_user s target db) = Some Unauthorized
  ∧ db_after db (promote_user_to_admin s target new_role db) = db
  ∧ db_after db (demote_admin_to_user s target db) = db.
Proof.
  intros Hc. unfold promote_user_to_admin.
  rewrite promote_with_unauthorized, demote_unauthorized by done.
  done.
Qed.

(** The older schema file answers such a caller the same way. *)
Lemma non_super_admin_caller_unauthorized_narrow
    (s : session) (db : Db) (target new_role : string) :
  is_super_admin db (auth_uid s) = false →
  UsersSchema.promote_user_to_admin s target new_role db
    = Abort (RaiseException msg_only_super_admins_promote).
Proof. apply promote_with_unauthorized. Qed.

Lemma non_super_admin_caller_unauthorized_witness :
  is_super_admin Sample.db (auth_uid (Sample.as_user "alice" 10)) = false
  ∧ failure_kind (promote_user_to_admin (Sample.as_user "alice" 10) "bob" "admin" Sample.db)
    = Some Unauthorized
  ∧ failure_kind (demote_admin_to_user (Sample.as_user "alice" 10) "bob" Sample.db)
    = Some Unauthorized.
Proof.
  split; [reflexivity|].
  pose proof (non_super_admin_caller_unauthorized
                (Sample.as_user "alice" 10) Sample.db "bob" "admin" eq_refl) as H.
  split; apply H.
Defined.

(** An anonymous request has no [auth.uid()] and is refused too. *)
Example anonymous_caller_unauthorized :
  promote_user_to_admin (Sample.anonymous 10) "bob" "admin" Sample.db
  = Abort (RaiseException msg_only_super_admins_promote)
  ∧ demote_admin_to_user (Sample.anonymous 10) "alice" Sample.db
    = Abort (RaiseException msg_only_super_admins_demote).
Proof. split; vm_compute; reflexivity. Qed.

(** ** Targets that hold super_admin *)

(** C1, as stated, fails: when the caller is not a super_admin, the call
    on a super_admin target is refused by the authorization guard, which
    comes first, and the error is Unauthorized, not the untouchable one. *)
Lemma untouchable_error_depends_on_caller :
  holds_role Sample.db "root" "super_admin"
  ∧ promote_user_to_admin (Sample.as_user "alice" 10) "root" "admin" Sample.db
    = Abort (RaiseException msg_only_super_admins_promote)
  ∧ demote_admin_to_user (Sample.as_user "alice" 10) "root" Sample.db
    = Abort (RaiseException msg_only_super_admins_demote)
  ∧ promote_user_to_admin (Sample.as_user "alice" 10) "root" "admin" Sample.db
    ≠ Abort (RaiseException msg_untouchable)
  ∧ demote_admin_to_user (Sample.as_user "alice" 10) "root" Sample.db
    ≠ Abort (RaiseException msg_untouchable)
  ∧ failure_kind (promote_user_to_admin (Sample.as_user "alice" 10) "root" "admin" Sample.db)
    ≠ Some Forbidden.
Proof.
  split.
  { eexists. split; [vm_compute; reflexivity | reflexivity]. }
  repeat split; try (vm_compute; reflexivity); vm_compute; discriminate.
Qed.

(** C1, amended. For a target that holds a super_admin RoleAssignment,
    promote and demote fail for every caller and every role and leave the
    database as it was. The error is the untouchable one when the caller
    is a super_admin (for promote: and the target has a [users] row; it is
    NotFound when it has none), and Unauthorized when the caller is not a
    super_admin. *)
Theorem super_admin_target_untouchable
    (s : session) (db : Db) (target new_role : string) :
  holds_role db target "super_admin" →
  let p := promote_user_to_admin s target new_role db in
  let d := demote_admin_to_user s target db in
  succeeded p = false ∧ succeeded d = false
  ∧ db_after db p = db ∧ db_after db d = db
  ∧ (is_super_admin db (auth_uid s) = true →
       d = Abort (RaiseException msg_untouchable)
       ∧ failure_kind d = Some Forbidden
       ∧ (user_exists db target = true →
            p = Abort (RaiseException msg_untouchable)
            ∧ failure_kind p = Some Forbidden)
       ∧ (user_exists db target = false → failure_kind p = Some NotFound))
  ∧ (is_super_admin db (auth_uid s) = false →
       failure_kind p = Some Unauthorized ∧ failure_kind d = Some Unauthorized).
Proof.
  intros Ht%is_super_admin_true p d. subst p d.
  unfold promote_user_to_admin.
  destruct (is_super_admin db (auth_uid s)) eqn:Hc.
  - rewrite (demote_untouchable s db target) by done.
    destruct (user_exists db target) eqn:Hu.
    + rewrite promote_with_untouchable by done. naive_solver.
    + rewrite promote_with_not_found by done. naive_solver.
  - rewrite promote_with_unauthorized, demote_unauthorized by done.
    naive_solver.
Qed.

Lemma super_admin_target_untouchable_witness :
  holds_role Sample.db "owner" "super_admin"
  ∧ promote_user_to_admin (Sample.as_user "root" 10) "owner" "admin" Sample.db
    = Abort (RaiseException msg_untouchable)
  ∧ db_after Sample.db
      (demote_admin_to_user (Sample.as_user "root" 10) "owner" Sample.db)
    = Sample.db.
Proof.
  assert (Hrole : holds_role Sample.db "owner" "super_admin").
  { eexists. split; [vm_compute; reflexivity | reflexivity]. }
  split; [exact Hrole|].
  pose proof (super_admin_target_untouchable
                (Sample.as_user "root" 10) Sample.db "owner" "admin" Hrole) as H.
  cbv zeta in H. destruct H as (_ & _ & _ & Hdb & Hsa & _).
  split; [|exact Hdb].
  destruct (Hsa eq_refl) as (_ & _ & Hp & _).
  apply (Hp eq_refl).
Defined.

(** A super_admin row whose user has no [users] row: promote stops at the
    existence check, demote at the untouchable one. *)
Example super_admin_without_users_row :
  promote_user_to_admin (Sample.as_user "root" 10) "ghost" "admin" Sample.db
  = Abort (RaiseException msg_user_does_not_exist)
  ∧ demote_admin_to_user (Sample.as_user "root" 10) "ghost" Sample.db
    = Abort (RaiseException msg_untouchable).
Proof. split; vm_compute; reflexivity. Qed.

(** ** Demotion *)

Lemma is_super_admin_delete_other db target c :
  is_super_admin db (Some c) = true →
  is_super_admin db (Some target) = false →
  is_super_admin (set_admin_users db (delete target (admin_users db))) (Some c) = true.
Proof.
  intros Hc Ht. unfold is_super_admin, has_role_in in *. simpl.
  destruct (decide (target = c)) as [->|Hne]; [congruence|].
  by rewrite lookup_delete_ne.
Qed.

Lemma is_super_admin_deleted db target :
  is_super_admin (set_admin_users db (delete target (admin_users db))) (Some target)
  = false.
Proof. unfold is_super_admin, has_role_in. simpl. by rewrite lookup_delete_eq. Qed.

(** C7. For a super_admin caller and a target that holds no super_admin
    RoleAssignment, demote succeeds and leaves no row for the target; a
    second demote succeeds too and leaves the same database; and when the
    target holds no row at all the call succeeds and changes nothing. *)
Theorem demote_idempotent (s s' : session) (db : Db) (target : string) :
  is_super_admin db (auth_uid s) = true →
  auth_uid s' = auth_uid s →
  is_super_admin db (Some target) = false →
  ∃ db1,
    demote_admin_to_user s target db = Return true db1
    ∧ admin_users db1 !! target = None
    ∧ demote_admin_to_user s' target db1 = Return true db1
    ∧ (admin_users db !! target = None → db1 = db).
Proof.
  intros Hc Hs' Ht.
  exists (set_admin_users db (delete target (admin_users db))).
  split; [by apply demote_ok|].
  split; [simpl; apply lookup_delete_eq|].
  split.
  - destruct (auth_uid s) as [c|] eqn:Hcs; [|done].
    rewrite demote_ok.
    + simpl. unfold set_admin_users. simpl. by rewrite delete_delete_eq.
    + rewrite Hs'. by apply is_super_admin_delete_other.
    + apply is_super_admin_deleted.
  - intros Hnone. rewrite delete_id by done. apply set_admin_users_id.
Qed.

Lemma demote_idempotent_witness :
  is_super_admin Sample.db (auth_uid (Sample.as_user "root" 10)) = true
  ∧ is_super_admin Sample.db (Some "alice") = false
  ∧ ∃ db1,
      demote_admin_to_user (Sample.as_user "root" 10) "alice" Sample.db = Return true db1
      ∧ admin_users db1 !! "alice" = None
      ∧ demote_admin_to_user (Sample.as_user "root" 11) "alice" db1 = Return true db1
      ∧ (admin_users Sample.db !! "alice" = None → db1 = Sample.db).
Proof.
  split; [reflexivity|]. split; [reflexivity|].
  apply (demote_idempotent (Sample.as_user "root" 10) (Sample.as_user "root" 11)
           Sample.db "alice"); reflexivity.
Defined.

(** ** Promotion as an upsert *)

Lemma upsert_admin_lookup s target new_role t :
  ∃ r, upsert_admin s target new_role t !! target = Some r
       ∧ au_role r = new_role
       ∧ au_created_by r = auth_uid s
       ∧ au_updated_at r = now s
       ∧ au_created_at r = default (now s) (au_created_at <$> t !! target).
Proof.
  unfold upsert_admin. destruct (t !! target) as [r0|];
    rewrite lookup_insert_eq; eauto 10.
Qed.

Lemma upsert_admin_lookup_ne s target new_role t k :
  k ≠ target → upsert_admin s target new_role t !! k = t !! k.
Proof.
  intros Hne. unfold upsert_admin.
  destruct (t !! target); by rewrite lookup_insert_ne.
Qed.

Lemma is_super_admin_upsert_other db s target new_role c :
  is_super_admin db (Some c) = true →
  is_super_admin db (Some target) = false →
  is_super_admin
    (set_admin_users db (upsert_admin s target new_role (admin_users db))) (Some c)
  = true.
Proof.
  intros Hc Ht. unfold is_super_admin, has_role_in in *. simpl.
  destruct (decide (c = target)) as [->|Hne]; [congruence|].
  by rewrite upsert_admin_lookup_ne.
Qed.

(** C8, as stated, fails in its last part: after the two promotions a
    further promote of the user by a caller that is not a super_admin is
    stopped by the first guard, and the error is Unauthorized, not the
    untouchable one. [root] promotes [bob] to admin, [owner] promotes him
    to super_admin, and then [alice], an admin, asks. *)
Lemma third_promote_by_a_plain_admin :
  ∃ db1 db2,
    promote_user_to_admin (Sample.as_user "root" 10) "bob" "admin" Sample.db
      = Return true db1
    ∧ promote_user_to_admin (Sample.as_user "owner" 11) "bob" "super_admin" db1
      = Return true db2
    ∧ holds_role db2 "bob" "super_admin"
    ∧ promote_user_to_admin (Sample.as_user "alice" 12) "bob" "admin" db2
      = Abort (RaiseException msg_only_super_admins_promote)
    ∧ promote_user_to_admin (Sample.as_user "alice" 12) "bob" "admin" db2
      ≠ Abort (RaiseException msg_untouchable)
    ∧ failure_kind (promote_user_to_admin (Sample.as_user "alice" 12) "bob" "admin" db2)
      = Some Unauthorized.
Proof.
  eexists. eexists. split; [vm_compute; reflexivity|].
  split; [vm_compute; reflexivity|]. split.
  { eexists. split; [vm_compute; reflexivity | reflexivity]. }
  split; [vm_compute; reflexivity|]. split; [vm_compute; discriminate|].
  vm_compute. reflexivity.
Qed.

(** C8, amended. [u] has a [users] row and no RoleAssignment, [c1] and
    [c2] are super_admins. After [c1] promotes [u] to admin the row has
    role admin and creator [c1]; after [c2] promotes [u] to super_admin
    the row has role super_admin and creator [c2]. From then on every
    promote of [u] fails and changes nothing: with the untouchable error
    for every caller that is a super_admin, with Unauthorized for every
    other caller. *)
Theorem promote_admin_then_super_admin
    (s1 s2 : session) (db : Db) (u c1 c2 : string) :
  auth_uid s1 = Some c1 → auth_uid s2 = Some c2 →
  is_super_admin db (Some c1) = true →
  is_super_admin db (Some c2) = true →
  user_exists db u = true →
  admin_users db !! u = None →
  ∃ db1 db2 r1 r2,
    promote_user_to_admin s1 u "admin" db = Return true db1
    ∧ admin_users db1 !! u = Some r1
    ∧ au_role r1 = "admin" ∧ au_created_by r1 = Some c1
    ∧ promote_user_to_admin s2 u "super_admin" db1 = Return true db2
    ∧ admin_users db2 !! u = Some r2
    ∧ au_role r2 = "super_admin" ∧ au_created_by r2 = Some c2
    ∧ ∀ (s3 : session) (role : string),
        succeeded (promote_user_to_admin s3 u role db2) = false
        ∧ db_after db2 (promote_user_to_admin s3 u role db2) = db2
        ∧ (is_super_admin db2 (auth_uid s3) = true →
             promote_user_to_admin s3 u role db2
             = Abort (RaiseException msg_untouchable))
        ∧ (is_super_admin db2 (auth_uid s3) = false →
             promote_user_to_admin s3 u role db2
             = Abort (RaiseException msg_only_super_admins_promote)).
Proof.
  intros Hs1 Hs2 Hc1 Hc2 Hu Hnone.
  assert (Ht : is_super_admin db (Some u) = false).
  { unfold is_super_admin, has_role_in. by rewrite Hnone. }
  set (db1 := set_admin_users db (upsert_admin s1 u "admin" (admin_users db))).
  set (db2 := set_admin_users db1 (upsert_admin s2 u "super_admin" (admin_users db1))).
  destruct (upsert_admin_lookup s1 u "admin" (admin_users db))
    as (r1 & Hr1 & Hrole1 & Hby1 & _).
  destruct (upsert_admin_lookup s2 u "super_admin" (admin_users db1))
    as (r2 & Hr2 & Hrole2 & Hby2 & _).
  assert (Ht1 : is_super_admin db1 (Some u) = false).
  { unfold is_super_admin, has_role_in.
    change (admin_users db1) with (upsert_admin s1 u "admin" (admin_users db)).
    by rewrite Hr1, Hrole1. }
  assert (Ht2 : is_super_admin db2 (Some u) = true).
  { unfold is_super_admin, has_role_in.
    change (admin_users db2) with (upsert_admin s2 u "super_admin" (admin_users db1)).
    by rewrite Hr2, Hrole2. }
  exists db1, db2, r1, r2.
  split.
  { unfold promote_user_to_admin. rewrite promote_with_ok; [done|by rewrite Hs1|done..|].
    apply (bool_decide_unpack _). vm_compute. exact I. }
  split; [done|]. split; [done|]. split; [by rewrite Hby1|].
  split.
  { unfold promote_user_to_admin. rewrite promote_with_ok; [done| |done..|].
    - rewrite Hs2. by apply is_super_admin_upsert_other.
    - apply (bool_decide_unpack _). vm_compute. exact I. }
  split; [done|]. split; [done|]. split; [by rewrite Hby2|].
  assert (Hu2 : user_exists db2 u = true) by done.
  intros s3 role. unfold promote_user_to_admin.
  destruct (promote_with_cases allowed_roles msg_invalid_role s3 db2 u role)
    as [(H3 & Ho)|[(_ & Hx & _)|[(H3 & _ & _ & Ho)|[(_ & _ & Hy & _)|(_ & _ & Hy & _)]]]];
    [| congruence | | congruence | congruence].
  - rewrite Ho. split_and!; [done..|intros H3'; congruence|done].
  - rewrite Ho. split_and!; [done..|]. intros H3'. congruence.
Qed.

Lemma promote_admin_then_super_admin_witness :
  user_exists Sample.db "bob" = true ∧ admin_users Sample.db !! "bob" = None
  ∧ ∃ db1 db2 r1 r2,
    promote_user_to_admin (Sample.as_user "root" 10) "bob" "admin" Sample.db
      = Return true db1
    ∧ admin_users db1 !! "bob" = Some r1
    ∧ au_role r1 = "admin" ∧ au_created_by r1 = Some "root"
    ∧ promote_user_to_admin (Sample.as_user "owner" 11) "bob" "super_admin" db1
      = Return true db2
    ∧ admin_users db2 !! "bob" = Some r2
    ∧ au_role r2 = "super_admin" ∧ au_created_by r2 = Some "owner"
    ∧ ∀ (s3 : session) (role : string),
        succeeded (promote_user_to_admin s3 "bob" role db2) = false
        ∧ db_after db2 (promote_user_to_admin s3 "bob" role db2) = db2
        ∧ (is_super_admin db2 (auth_uid s3) = true →
             promote_user_to_admin s3 "bob" role db2
             = Abort (RaiseException msg_untouchable))
        ∧ (is_super_admin db2 (auth_uid s3) = false →
             promote_user_to_admin s3 "bob" role db2
             = Abort (RaiseException msg_only_super_admins_promote)).
Proof.
  split; [reflexivity|]. split; [reflexivity|].
  apply (promote_admin_then_super_admin
           (Sample.as_user "root" 10) (Sample.as_user "owner" 11)
           Sample.db "bob" "root" "owner"); reflexivity.
Defined.

(** ** The roles stored in the Role Registry *)

Lemma roles_within_delete L db target :
  roles_within L db →
  roles_within L (set_admin_users db (delete target (admin_users db))).
Proof. unfold roles_within. simpl. apply map_Forall_delete. Qed.

Lemma roles_within_upsert L db s target new_role :
  new_role ∈ L →
  roles_within L db →
  roles_within L (set_admin_users db (upsert_admin s target new_role (admin_users db))).
Proof.
  unfold roles_within. simpl. intros Hin Hall k r Hk.
  destruct (decide (k = target)) as [->|Hne].
  - destruct (upsert_admin_lookup s target new_role (admin_users db))
      as (r' & Hr' & Hrole & _).
    rewrite Hr' in Hk. injection Hk as <-. by rewrite Hrole.
  - rewrite upsert_admin_lookup_ne in Hk by done. by apply (Hall k).
Qed.

(** C3, as stated, fails: 'user' passes the validation of promote, and
    the upsert stores it. In a registry whose rows are all admin or
    super_admin, a super_admin promotes [bob] with role 'user': the call
    succeeds and leaves a row with role 'user'. *)
Lemma promote_stores_role_user :
  roles_within ["admin"; "super_admin"] Sample.db
  ∧ ∃ db',
      promote_user_to_admin (Sample.as_user "root" 10) "bob" "user" Sample.db
        = Return true db'
      ∧ admin_users db' !! "bob"
        = Some {| au_role := "user"; au_created_at := 10; au_updated_at := 10;
                  au_created_by := Some "root" |}
      ∧ ¬ roles_within ["admin"; "super_admin"] db'.
Proof.
  split.
  { apply (bool_decide_unpack _). vm_compute. exact I. }
  eexists. split; [vm_compute; reflexivity|].
  split; [vm_compute; reflexivity|].
  intros Hall. apply (bool_decide_pack _) in Hall. vm_compute in Hall. exact Hall.
Qed.

(** C3, amended. Demote deletes the target's row and never writes a role,
    so it preserves any bound [L] on the stored roles. A successful
    promote stores the requested role as it is, and that role is one of
    'user', 'admin', 'super_admin': it preserves the bound [L] when the
    requested role is in [L], and always preserves the bound
    'user', 'admin', 'super_admin'. *)
Theorem gate_preserves_stored_roles
    (L : list string) (s : session) (db db' : Db) (target new_role : string) :
  roles_within L db →
  (demote_admin_to_user s target db = Return true db' →
     roles_within L db' ∧ admin_users db' !! target = None)
  ∧ (promote_user_to_admin s target new_role db = Return true db' →
       new_role ∈ allowed_roles
       ∧ (∃ r, admin_users db' !! target = Some r ∧ au_role r = new_role)
       ∧ (new_role ∈ L → roles_within L db')
       ∧ (allowed_roles ⊆ L → roles_within L db')).
Proof.
  intros Hall. split.
  - unfold demote_admin_to_user. intros Hd.
    destruct (negb (is_super_admin db (auth_uid s))); [done|].
    destruct (is_super_admin db (Some target)); [done|].
    injection Hd as <-. split; [by apply roles_within_delete|].
    simpl. apply lookup_delete_eq.
  - unfold promote_user_to_admin. intros Hp.
    destruct (promote_with_cases allowed_roles msg_invalid_role s db target new_role)
      as [(_ & Ho)|[(_ & _ & Ho)|[(_ & _ & _ & Ho)|[(_ & _ & _ & _ & Ho)
          |(_ & _ & _ & Hin & Ho)]]]]; rewrite Ho in Hp; try done.
    injection Hp as <-. split; [done|]. split.
    + destruct (upsert_admin_lookup s target new_role (admin_users db))
        as (r & Hr & Hrole & _). eauto.
    + split; intros HL; apply roles_within_upsert; auto.
Qed.

Lemma gate_preserves_stored_roles_witness :
  roles_within allowed_roles Sample.db
  ∧ ∃ db',
      promote_user_to_admin (Sample.as_user "root" 10) "bob" "user" Sample.db
        = Return true db'
      ∧ roles_within allowed_roles db'.
Proof.
  assert (H0 : roles_within allowed_roles Sample.db).
  { apply (bool_decide_unpack _). vm_compute. exact I. }
  split; [exact H0|].
  eexists. split; [vm_compute; reflexivity|].
  eapply (gate_preserves_stored_roles allowed_roles
            (Sample.as_user "root" 10) Sample.db _ "bob" "user" H0).
  - vm_compute. reflexivity.
  - reflexivity.
Defined.

(** ** Validation of the requested role *)

(** C5, as stated, fails: the validation is the fourth guard. A caller
    that is not a super_admin asks for a role outside the list and is
    answered Unauthorized, not InvalidArgument. *)
Lemma invalid_role_masked_by_earlier_guard :
  ("boss" ∉ allowed_roles)
  ∧ promote_user_to_admin (Sample.as_user "alice" 10) "bob" "boss" Sample.db
    = Abort (RaiseException msg_only_super_admins_promote)
  ∧ failure_kind
      (promote_user_to_admin (Sample.as_user "alice" 10) "bob" "boss" Sample.db)
    ≠ Some InvalidArgument.
Proof.
  split; [apply (bool_decide_unpack _); vm_compute; exact I|].
  split; [vm_compute; reflexivity|].
  vm_compute. discriminate.
Qed.

(** C5, amended. Promote fails with InvalidArgument exactly when the
    three earlier guards pass (the caller is a super_admin, the target has
    a [users] row, the target is not a super_admin) and the requested role
    is none of 'user', 'admin', 'super_admin'. When the three guards pass
    and the role is 'super_admin', the call succeeds. *)
Theorem invalid_argument_iff (s : session) (db : Db) (target new_role : string) :
  (failure_kind (promote_user_to_admin s target new_role db) = Some InvalidArgument
   ↔ is_super_admin db (auth_uid s) = true
     ∧ user_exists db target = true
     ∧ is_super_admin db (Some target) = false
     ∧ (new_role ∉ allowed_roles))
  ∧ (is_super_admin db (auth_uid s) = true →
     user_exists db target = true →
     is_super_admin db (Some target) = false →
     ∃ db', promote_user_to_admin s target "super_admin" db = Return true db'
            ∧ holds_role db' target "super_admin").
Proof.
  unfold promote_user_to_admin. split.
  - destruct (promote_with_cases allowed_roles msg_invalid_role s db target new_role)
      as [(Hc & Ho)|[(Hc & Hu & Ho)|[(Hc & Hu & Ht & Ho)|[(Hc & Hu & Ht & Hr & Ho)
          |(Hc & Hu & Ht & Hr & Ho)]]]]; rewrite Ho.
    + split; [discriminate | intros (? & _); congruence].
    + split; [discriminate | intros (_ & ? & _); congruence].
    + split; [discriminate | intros (_ & _ & ? & _); congruence].
    + split; [by intros _ | by intros _].
    + split; [discriminate | by intros (_ & _ & _ & ?)].
  - intros Hc Hu Ht. eexists. split.
    + apply promote_with_ok; [done..|].
      apply (bool_decide_unpack _). vm_compute. exact I.
    + destruct (upsert_admin_lookup s target "super_admin" (admin_users db))
        as (r & Hr & Hrole & _). by exists r.
Qed.

Lemma invalid_argument_iff_witness :
  is_super_admin Sample.db (Some "root") = true
  ∧ user_exists Sample.db "carol" = true
  ∧ is_super_admin Sample.db (Some "carol") = false
  ∧ ∃ db', promote_user_to_admin (Sample.as_user "root" 10) "carol" "super_admin" Sample.db
             = Return true db'
           ∧ holds_role db' "carol" "super_admin".
Proof.
  split; [reflexivity|]. split; [reflexivity|]. split; [reflexivity|].
  apply (invalid_argument_iff (Sample.as_user "root" 10) Sample.db "carol" "super_admin");
    reflexivity.
Defined.

(** The older schema file refuses 'super_admin' at the same place. *)
Lemma narrow_schema_rejects_super_admin (s : session) (db : Db) (target : string) :
  is_super_admin db (auth_uid s) = true →
  user_exists db target = true →
  is_super_admin db (Some target) = false →
  UsersSchema.promote_user_to_admin s target "super_admin" db
  = Abort (RaiseException msg_invalid_role_narrow).
Proof.
  intros. apply promote_with_invalid; [done..|].
  apply (bool_decide_unpack _). vm_compute. exact I.
Qed.

(** ** Listing the Directory with roles *)

Lemma guard_reference_is_ambiguous :
  unqualified_reference get_all_users_columns admin_users_columns "id"
  = Some (AmbiguousColumn "id").
Proof. reflexivity. Qed.

(** C4, on the code. [get_all_users] declares an output column [id] and
    reads [id] unqualified in its guard: the query of the guard is
    refused as ambiguous, for every caller and every database. A caller
    with role admin or super_admin is given no rows, and a caller without
    such a role is not answered Unauthorized. *)
Theorem get_all_users_raises_ambiguous_id (s : session) (db : Db) :
  get_all_users s db = Abort (AmbiguousColumn "id")
  ∧ succeeded (get_all_users s db) = false
  ∧ failure_kind (get_all_users s db) = None
  ∧ get_all_users s db ≠ Abort (RaiseException msg_only_admins_view).
Proof.
  unfold get_all_users. rewrite guard_reference_is_ambiguous. done.
Qed.

(** [alice] is an admin and [bob] holds no role: both get the same
    error. *)
Example get_all_users_sample :
  has_role_in Sample.db (Some "alice") ["admin"; "super_admin"] = true
  ∧ get_all_users (Sample.as_user "alice" 10) Sample.db = Abort (AmbiguousColumn "id")
  ∧ has_role_in Sample.db (Some "bob") ["admin"; "super_admin"] = false
  ∧ get_all_users (Sample.as_user "bob" 10) Sample.db = Abort (AmbiguousColumn "id").
Proof. split_and!; reflexivity. Qed.

(** ** The HTTP routes *)

Lemma includes_truthy (l : list string) (v : option json) :
  "" ∉ l → includes l v = true → ∃ r, v = Some (JStr r) ∧ r ∈ l ∧ truthy v = true.
Proof.
  intros Hne Hin. destruct v as [[| | |r| |]|]; try done.
  apply bool_decide_eq_true in Hin. exists r. split_and!; [done..|].
  simpl. rewrite bool_decide_eq_false_2; [done|]. by intros ->.
Qed.

Lemma destructured_some (b : json) : b ≠ JNull → destructured (Some b) = Some b.
Proof. by destruct b. Qed.

(** C9, as stated, fails: the body [null] carries no [userId], and both
    routes answer it 500, not 400, because destructuring [null] throws
    inside the [try]; a body that does not parse is answered 500 too. No
    call is issued in either case. *)
Lemma null_body_is_answered_500 :
  get_field JNull "userId" = None
  ∧ run (gate_rpc (Sample.as_user "root" 10)) (PromoteRoute.POST (Some JNull)) Sample.db
    = ({| status := 500; body := JObj [("error", JStr "Internal server error")] |},
       Sample.db, [])
  ∧ run (gate_rpc (Sample.as_user "root" 10)) (DemoteRoute.POST (Some JNull)) Sample.db
    = ({| status := 500; body := JObj [("error", JStr "Internal server error")] |},
       Sample.db, [])
  ∧ status (run (gate_rpc (Sample.as_user "root" 10))
              (DemoteRoute.POST (Some JNull)) Sample.db).1.1 ≠ 400
  ∧ status (run (gate_rpc (Sample.as_user "root" 10))
              (PromoteRoute.POST None) Sample.db).1.1 ≠ 400.
Proof. split_and!; try reflexivity; simpl; discriminate. Qed.

(** C9, amended. For a request whose body parses to something other
    than [null]: when [userId] is missing or falsy (for promote: or
    [role] is, or [role] is none of 'user', 'admin', 'super_admin') the
    route answers 400 with an error and issues no call; otherwise it
    issues exactly one call, and answers 400 with the message of whatever
    error the call resolves with, and 200 with [success: true] and a
    message when it resolves without error. A body that does not parse,
    or that is [null], is answered 500 and no call is issued. *)
Theorem routes_reject_or_forward
    {W : Type} (h : ∀ X, rpcE X → W → X * W) (w : W) (b : json) :
  b ≠ JNull →
  let userId := get_field b "userId" in
  let role := get_field b "role" in
  let valid := includes ["user"; "admin"; "super_admin"] role in
  (truthy userId = false ∨ truthy role = false ∨ valid = false →
     ∃ msg, run h (PromoteRoute.POST (Some b)) w
            = ({| status := 400; body := JObj [("error", JStr msg)] |}, w, []))
  ∧ (truthy userId = true → valid = true →
     ∃ u r, userId = Some u ∧ role = Some (JStr r) ∧
       let call := Rpc "promote_user_to_admin"
                       [("target_user_id", u); ("new_role", JStr r)] in
       run h (PromoteRoute.POST (Some b)) w
       = (forwarded ("User successfully promoted to " +:+ r) (h _ call w).1,
          (h _ call w).2, [existT _ call]))
  ∧ (truthy userId = false →
     run h (DemoteRoute.POST (Some b)) w
     = ({| status := 400; body := JObj [("error", JStr "Missing userId")] |}, w, []))
  ∧ (truthy userId = true →
     ∃ u, userId = Some u ∧
       let call := Rpc "demote_admin_to_user" [("target_user_id", u)] in
       run h (DemoteRoute.POST (Some b)) w
       = (forwarded "User successfully demoted to regular user" (h _ call w).1,
          (h _ call w).2, [existT _ call]))
  ∧ (∀ request_body, request_body = None ∨ request_body = Some JNull →
       run h (PromoteRoute.POST request_body) w
       = ({| status := 500; body := JObj [("error", JStr "Internal server error")] |},
          w, [])
       ∧ run h (DemoteRoute.POST request_body) w
         = ({| status := 500; body := JObj [("error", JStr "Internal server error")] |},
            w, [])).
Proof.
  intros Hb userId role valid.
  assert (Hvalid : valid = true → ∃ r, role = Some (JStr r) ∧ truthy role = true).
  { intros Hv. apply includes_truthy in Hv as (r & ? & _ & ?); [eauto|].
    apply (bool_decide_unpack _). vm_compute. exact I. }
  unfold PromoteRoute.POST, DemoteRoute.POST.
  rewrite (destructured_some b Hb).
  fold userId role. fold valid.
  split_and!.
  - intros Hbad.
    destruct (truthy userId) eqn:Hu; [|simpl; eauto].
    destruct (truthy role) eqn:Hr; [|simpl; eauto].
    destruct valid eqn:Hv; [|simpl; eauto].
    by destruct Hbad as [?|[?|?]].
  - intros Hu Hv. destruct (Hvalid Hv) as (r & Hrole & Hr).
    destruct userId as [u|] eqn:Hid; [|done].
    exists u, r. split; [done|]. split; [done|].
    rewrite Hu, Hr, Hv, Hrole. simpl.
    destruct (h rpc_reply _ w) as [[[m|]|] w1]; done.
  - intros Hu. by rewrite Hu.
  - intros Hu. destruct userId as [u|] eqn:Hid; [|done].
    exists u. split; [done|]. rewrite Hu. simpl.
    destruct (h rpc_reply _ w) as [[[m|]|] w1]; done.
  - by intros request_body [-> | ->].
Qed.

Lemma routes_reject_or_forward_witness :
  Sample.promote_bob ≠ JNull
  ∧ truthy (get_field Sample.promote_bob "userId") = true
  ∧ includes ["user"; "admin"; "super_admin"] (get_field Sample.promote_bob "role") = true
  ∧ ∃ u r,
      get_field Sample.promote_bob "userId" = Some u
      ∧ get_field Sample.promote_bob "role" = Some (JStr r)
      ∧ run (gate_rpc (Sample.as_user "root" 10))
            (PromoteRoute.POST (Some Sample.promote_bob)) Sample.db
        = (forwarded ("User successfully promoted to " +:+ r)
             (gate_rpc (Sample.as_user "root" 10) _
                (Rpc "promote_user_to_admin"
                     [("target_user_id", u); ("new_role", JStr r)]) Sample.db).1,
           (gate_rpc (Sample.as_user "root" 10) _
                (Rpc "promote_user_to_admin"
                     [("target_user_id", u); ("new_role", JStr r)]) Sample.db).2,
           [existT _ (Rpc "promote_user_to_admin"
                          [("target_user_id", u); ("new_role", JStr r)])]).
Proof.
  assert (Hb : Sample.promote_bob ≠ JNull) by discriminate.
  split; [exact Hb|]. split; [reflexivity|]. split; [reflexivity|].
  destruct (routes_reject_or_forward (gate_rpc (Sample.as_user "root" 10))
              Sample.db Sample.promote_bob Hb) as (_ & H & _).
  apply H; reflexivity.
Defined.

(** The routes against the sample database: a body without [userId], a
    role outside the list, a forwarded call that the gate refuses, and a
    forwarded call that succeeds. *)
Example promote_route_missing_user :
  run (gate_rpc (Sample.as_user "root" 10))
      (PromoteRoute.POST (Some (JObj [("role", JStr "admin")]))) Sample.db
  = ({| status := 400; body := JObj [("error", JStr "Missing userId or role")] |},
     Sample.db, []).
Proof. reflexivity. Qed.

Example promote_route_invalid_role :
  run (gate_rpc (Sample.as_user "root" 10))
      (PromoteRoute.POST (Some (JObj [("userId", JStr "bob"); ("role", JStr "boss")])))
      Sample.db
  = ({| status := 400;
        body := JObj [("error", JStr "Invalid role. Must be user, admin, or super_admin")] |},
     Sample.db, []).
Proof. reflexivity. Qed.

Example promote_route_gate_refuses :
  (run (gate_rpc (Sample.as_user "alice" 10))
       (PromoteRoute.POST (Some (JObj [("userId", JStr "bob"); ("role", JStr "admin")])))
       Sample.db).1
  = ({| status := 400;
        body := JObj [("error", JStr "Only super_admins can promote users to admin")] |},
     Sample.db)
  ∧ (run (gate_rpc (Sample.as_user "root" 10))
       (DemoteRoute.POST (Some (JObj [("userId", JStr "owner")]))) Sample.db).1
  = ({| status := 400;
        body := JObj [("error",
          JStr "Cannot modify super_admin role - super_admins are untouchable")] |},
     Sample.db).
Proof. split; vm_compute; reflexivity. Qed.

Example promote_route_success :
  (run (gate_rpc (Sample.as_user "root" 10))
       (PromoteRoute.POST (Some (JObj [("userId", JStr "bob"); ("role", JStr "admin")])))
       Sample.db).1.1
  = {| status := 200;
       body := JObj [("success", JBool true);
                     ("message", JStr "User successfully promoted to admin")] |}.
Proof. vm_compute. reflexivity. Qed.

Example routes_unparsed_or_null_body :
  PromoteRoute.POST None = Done (error_response "Internal server error" 500)
  ∧ PromoteRoute.POST (Some JNull) = Done (error_response "Internal server error" 500)
  ∧ DemoteRoute.POST (Some JNull) = Done (error_response "Internal server error" 500).
Proof. done. Qed.

(** ** The admin page: promoting from the modal *)

Lemma insert_admin_users_keeps s id role created_by db k r :
  admin_users db !! k = Some r →
  admin_users (insert_admin_users s id role created_by db).2 !! k = Some r.
Proof.
  intros Hk. unfold insert_admin_users.
  destruct (bool_decide (is_Some (admin_users db !! id))) eqn:Hid; [done|].
  destruct (negb (user_exists db id)); [done|]. simpl.
  apply bool_decide_eq_false in Hid.
  rewrite lookup_insert_ne; [done|]. intros ->. apply Hid. by exists r.
Qed.




(** On the sample database: [root] promotes [alice], who is an admin, to
    super_admin from the modal; and promotes [bob], who holds no role. *)
Example handlePromote_existing_admin :
  run (page_world (Sample.as_user "root" 10) search_route (λ _ _ _ _ _, None))
      (handlePromote (Some "root")
         (Some Scenario.admin_page)
         "alice" "super_admin") Sample.db
  = ((), Sample.db,
     [existT _ (InsertAdminUsers "alice" "super_admin" "root");
      existT _ (ConsoleError "Error promoting user:" (Some UniqueViolation));
      existT _ (Alert "Error promoting user. Please try again.")]).
Proof. vm_compute. reflexivity. Qed.

Example handlePromote_new_admin :
  admin_users
    (run (page_world (Sample.as_user "root" 10) search_route (λ _ _ _ _ _, None))
       (handlePromote (Some "root")
          (Some Scenario.admin_page)
          "bob" "admin") Sample.db).1.2 !! "bob"
  = Some {| au_role := "admin"; au_created_at := 10; au_updated_at := 10;
            au_created_by := Some "root" |}.
Proof. vm_compute. reflexivity. Qed.

(** ** The admin page: searching for a user to promote *)


Lemma handleSearch_filtered
    (s : session) (search : string → Db → fetch_reply)
    (audit : string → string → string → string → string → option pg_error)
    (adminUsers : option (list admin_user_view)) (q : string) (db : Db)
    (u : search_user) :
  u ∈ (run (page_world s search audit) (handleSearch adminUsers q) db).1.1 →
  ∀ l, adminUsers = Some l → su_id u ∉ (v_id <$> l).
Proof.
  unfold handleSearch, searchUsers.
  destruct (String.length q <? 3)%nat; [by intros ?%elem_of_nil|].
  destruct (bool_decide (q = "") || false); [by intros ?%elem_of_nil|].
  cbn [io_bind run page_world].
  destruct (search q db) as [|[|] users]; cbn [io_bind run page_world fst snd];
    try by intros ?%elem_of_nil.
  intros [Hu _]%list_elem_of_filter l ->. done.
Qed.





(** * Further properties *)

(** ** The gate leaves everything but the target's row alone *)

Lemma promote_with_db_after allowed invalid_msg s db target new_role :
  db_after db (promote_with allowed invalid_msg s target new_role db) = db
  ∨ (is_super_admin db (auth_uid s) = true ∧ user_exists db target = true
     ∧ is_super_admin db (Some target) = false ∧ new_role ∈ allowed
     ∧ db_after db (promote_with allowed invalid_msg s target new_role db)
       = set_admin_users db (upsert_admin s target new_role (admin_users db))).
Proof.
  destruct (promote_with_cases allowed invalid_msg s db target new_role)
    as [(_ & Ho)|[(_ & _ & Ho)|[(_ & _ & _ & Ho)|[(_ & _ & _ & _ & Ho)
        |(? & ? & ? & ? & Ho)]]]]; rewrite Ho; simpl; auto 10.
Qed.

Lemma demote_db_after s db target :
  db_after db (demote_admin_to_user s target db) = db
  ∨ (is_super_admin db (auth_uid s) = true
     ∧ is_super_admin db (Some target) = false
     ∧ db_after db (demote_admin_to_user s target db)
       = set_admin_users db (delete target (admin_users db))).
Proof.
  unfold demote_admin_to_user.
  destruct (is_super_admin db (auth_uid s)); [|by left].
  destruct (is_super_admin db (Some target)); [by left|]. right. done.
Qed.

(** X1. Whatever the caller, the target and the role, promote and demote
    leave the [users] table as it is and change no RoleAssignment but the
    target's. *)
Theorem gate_changes_only_the_target
    (s : session) (db : Db) (target new_role k : string) :
  k ≠ target →
  users (db_after db (promote_user_to_admin s target new_role db)) = users db
  ∧ admin_users (db_after db (promote_user_to_admin s target new_role db)) !! k
    = admin_users db !! k
  ∧ users (db_after db (demote_admin_to_user s target db)) = users db
  ∧ admin_users (db_after db (demote_admin_to_user s target db)) !! k
    = admin_users db !! k.
Proof.
  intros Hne. unfold promote_user_to_admin.
  destruct (promote_with_db_after allowed_roles msg_invalid_role s db target new_role)
    as [->|(_ & _ & _ & _ & ->)];
  destruct (demote_db_after s db target) as [->|(_ & _ & ->)]; simpl;
    rewrite ?upsert_admin_lookup_ne, ?lookup_delete_ne by done; done.
Qed.

Lemma gate_changes_only_the_target_witness :
  "alice" ≠ "bob"
  ∧ admin_users (db_after Sample.db
       (promote_user_to_admin (Sample.as_user "root" 10) "bob" "admin" Sample.db))
      !! "alice"
    = admin_users Sample.db !! "alice".
Proof.
  assert (Hne : "alice" ≠ "bob") by discriminate.
  split; [exact Hne|].
  apply (gate_changes_only_the_target (Sample.as_user "root" 10) Sample.db
           "bob" "admin" "alice" Hne).
Defined.

(** ** Promotion undone by demotion *)

(** X2. A user without RoleAssignment who is promoted to 'user' or
    'admin' and then demoted, by super_admins, is back where the two
    calls started: the database after the demotion is the one before the
    promotion. *)
Theorem promote_then_demote_restores
    (s s' : session) (db : Db) (target new_role : string) :
  is_super_admin db (auth_uid s) = true →
  is_super_admin db (auth_uid s') = true →
  user_exists db target = true →
  admin_users db !! target = None →
  new_role ∈ ["user"; "admin"] →
  ∃ db1,
    promote_user_to_admin s target new_role db = Return true db1
    ∧ db1 ≠ db
    ∧ demote_admin_to_user s' target db1 = Return true db.
Proof.
  intros Hs Hs' Hu Hnone Hrole.
  assert (Ht : is_super_admin db (Some target) = false).
  { unfold is_super_admin, has_role_in. by rewrite Hnone. }
  assert (Hor : new_role = "user" ∨ new_role = "admin").
  { rewrite !elem_of_cons in Hrole.
    destruct Hrole as [?|[?|?%elem_of_nil]]; auto; done. }
  assert (Hin : new_role ∈ allowed_roles).
  { destruct Hor as [->| ->]; apply (bool_decide_unpack _); vm_compute; exact I. }
  assert (Hns : new_role ≠ "super_admin").
  { destruct Hor as [->| ->]; discriminate. }
  destruct (upsert_admin_lookup s target new_role (admin_users db))
    as (r & Hr & Hrr & _).
  eexists. split; [by apply promote_with_ok|]. split.
  { intros Heq. apply (f_equal (λ d, admin_users d !! target)) in Heq.
    simpl in Heq. rewrite Hr, Hnone in Heq. done. }
  destruct (auth_uid s') as [c|] eqn:Hc; [|done].
  rewrite demote_ok.
  - f_equal. unfold set_admin_users, upsert_admin. simpl. rewrite Hnone.
    rewrite delete_insert_id by done. by destruct db.
  - rewrite Hc. by apply is_super_admin_upsert_other.
  - unfold is_super_admin, has_role_in. simpl. rewrite Hr, Hrr.
    apply bool_decide_eq_false. by intros ->%list_elem_of_singleton.
Qed.

Lemma promote_then_demote_restores_witness :
  admin_users Sample.db !! "bob" = None
  ∧ ∃ db1,
      promote_user_to_admin (Sample.as_user "root" 10) "bob" "admin" Sample.db
        = Return true db1
      ∧ db1 ≠ Sample.db
      ∧ demote_admin_to_user (Sample.as_user "owner" 11) "bob" db1
        = Return true Sample.db.
Proof.
  split; [reflexivity|].
  apply (promote_then_demote_restores (Sample.as_user "root" 10)
           (Sample.as_user "owner" 11) Sample.db "bob" "admin");
    try reflexivity.
  apply (bool_decide_unpack _). vm_compute. exact I.
Defined.

(** ** The two schema files *)

(** X4. The older schema file and users-schema-ultra-safe.sql differ on
    the role 'super_admin' and on nothing else that a caller can observe
    but the wording of the message: for 'user' and 'admin' their
    [promote_user_to_admin] give the same outcome, and for every role
    other than 'super_admin' they fail or succeed together, with the same
    kind of error and the same database. *)
Theorem schema_files_agree (s : session) (db : Db) (target new_role : string) :
  (new_role ∈ ["user"; "admin"] →
     UsersSchema.promote_user_to_admin s target new_role db
     = promote_user_to_admin s target new_role db)
  ∧ (new_role ≠ "super_admin" →
     failure_kind (UsersSchema.promote_user_to_admin s target new_role db)
     = failure_kind (promote_user_to_admin s target new_role db)
     ∧ db_after db (UsersSchema.promote_user_to_admin s target new_role db)
       = db_after db (promote_user_to_admin s target new_role db)).
Proof.
  unfold UsersSchema.promote_user_to_admin, promote_user_to_admin.
  assert (Hw : new_role ≠ "super_admin" →
            (new_role ∈ UsersSchema.allowed_roles ↔ new_role ∈ allowed_roles)).
  { intros Hns. unfold UsersSchema.allowed_roles, allowed_roles.
    rewrite !elem_of_cons. split; intros H; [tauto|].
    destruct H as [?|[?|[?|?%elem_of_nil]]]; tauto. }
  assert (Hn : new_role ∈ ["user"; "admin"] → new_role ≠ "super_admin").
  { rewrite !elem_of_cons. intros [->|[->|?%elem_of_nil]]; done. }
  unfold promote_with.
  destruct (negb (is_super_admin db (auth_uid s))); [done|].
  destruct (negb (user_exists db target)); [done|].
  destruct (is_super_admin db (Some target)); [done|].
  split.
  - intros Hin. pose proof Hin as Hin'. apply Hn, Hw in Hin'.
    rewrite !bool_decide_eq_true_2; [done|by apply Hin'|done].
  - intros Hns. apply Hw in Hns.
    destruct (decide (new_role ∈ allowed_roles)) as [Hin|Hin].
    + rewrite !bool_decide_eq_true_2; [done|done|by apply Hns].
    + rewrite !bool_decide_eq_false_2; [done|done|]. by rewrite Hns.
Qed.

Lemma schema_files_agree_witness :
  "admin" ∈ ["user"; "admin"]
  ∧ UsersSchema.promote_user_to_admin (Sample.as_user "root" 10) "bob" "admin" Sample.db
    = promote_user_to_admin (Sample.as_user "root" 10) "bob" "admin" Sample.db.
Proof.
  assert (H : "admin" ∈ ["user"; "admin"]).
  { apply (bool_decide_unpack _). vm_compute. exact I. }
  split; [exact H|].
  apply (schema_files_agree (Sample.as_user "root" 10) Sample.db "bob" "admin"), H.
Defined.

(** ** New identities, sign-ins and the migration *)

Lemma migrate_users_lookup auth db k :
  users (migrate_users auth db) !! k
  = match users db !! k with
    | Some u => Some u
    | None => users_row_of <$> auth !! k
    end.
Proof.
  unfold migrate_users. simpl. rewrite lookup_union, lookup_fmap.
  destruct (users db !! k) as [u|] eqn:Hk.
  - by destruct (_ <$> _).
  - rewrite (left_id None). rewrite map_lookup_filter.
    destruct (auth !! k) as [a|] eqn:Ha; simpl; [|done].
    by rewrite option_guard_True.
  Unshelve. all: apply _.
Qed.

(** X5. The migration only adds: a [users] row that is there stays as it
    is, every identity of [auth.users] has a row afterwards (built from
    the identity when it had none), no RoleAssignment changes, and
    running the migration a second time changes nothing. *)
Theorem migration_is_safe_to_repeat (auth : gmap string auth_users_row) (db : Db) :
  (∀ k u, users db !! k = Some u → users (migrate_users auth db) !! k = Some u)
  ∧ (∀ k a, auth !! k = Some a →
       users (migrate_users auth db) !! k
       = Some (default (users_row_of a) (users db !! k)))
  ∧ (∀ k, users (migrate_users auth db) !! k = None ↔
          users db !! k = None ∧ auth !! k = None)
  ∧ admin_users (migrate_users auth db) = admin_users db
  ∧ migrate_users auth (migrate_users auth db) = migrate_users auth db.
Proof.
  split_and!.
  - intros k u Hk. by rewrite migrate_users_lookup, Hk.
  - intros k a Ha. rewrite migrate_users_lookup, Ha. by destruct (users db !! k).
  - intros k. rewrite migrate_users_lookup.
    destruct (users db !! k) as [u|], (auth !! k) as [a|]; simpl;
      (split; [try done | by intros [??]]).
  - done.
  - assert (Heq : users (migrate_users auth (migrate_users auth db))
                  = users (migrate_users auth db)).
    { apply map_eq. intros k. rewrite !migrate_users_lookup.
      destruct (users db !! k); [done|]. by destruct (auth !! k). }
    transitivity (set_users (migrate_users auth db)
                    (users (migrate_users auth (migrate_users auth db)))); [done|].
    by rewrite Heq.
Qed.

(** X7. A sign-in rewrites [last_sign_in_at] and [updated_at] of the
    user's row and nothing else: no other row, no other column, no
    RoleAssignment; and when the user has no [users] row none is made. *)
Theorem signin_updates_two_columns
    (s : session) (new_id : string) (new : auth_users_row) (db : Db) :
  ∃ db1,
    handle_user_signin s new_id new db = Return () db1
    ∧ admin_users db1 = admin_users db
    ∧ (∀ k, k ≠ new_id → users db1 !! k = users db !! k)
    ∧ (users db !! new_id = None → db1 = db)
    ∧ ∀ u, users db !! new_id = Some u →
        ∃ u1, users db1 !! new_id = Some u1
              ∧ u_last_sign_in_at u1 = a_last_sign_in_at new
              ∧ u_updated_at u1 = now s
              ∧ u_email u1 = u_email u ∧ u_full_name u1 = u_full_name u
              ∧ u_avatar_url u1 = u_avatar_url u ∧ u_phone u1 = u_phone u
              ∧ u_created_at u1 = u_created_at u ∧ u_is_active u1 = u_is_active u.
Proof.
  eexists. split; [reflexivity|]. simpl. split; [done|]. split_and!.
  - intros k Hk. by rewrite lookup_alter_ne.
  - intros Hnone. destruct db as [us au]. unfold set_users. simpl in *.
    f_equal. apply map_eq. intros k. destruct (decide (new_id = k)) as [<-|Hne].
    + by rewrite lookup_alter_eq, Hnone.
    + by rewrite lookup_alter_ne.
  - intros u Hu. rewrite lookup_alter_eq, Hu. simpl. eexists. split; [done|]. done.
Qed.

(** ** The setup script *)

Lemma service_upsert_users s id role cb db :
  users (service_upsert s id role cb db).2 = users db.
Proof.
  unfold service_upsert. destruct (admin_users db !! id); [done|].
  by destruct (negb (user_exists db id)).
Qed.

Lemma service_upsert_lookup_ne s id role cb db k :
  k ≠ id → admin_users (service_upsert s id role cb db).2 !! k = admin_users db !! k.
Proof.
  intros Hne. unfold service_upsert. destruct (admin_users db !! id).
  - simpl. by rewrite lookup_insert_ne.
  - destruct (negb (user_exists db id)); [done|]. simpl. by rewrite lookup_insert_ne.
Qed.

Lemma service_upsert_lookup_eq s id role cb db :
  user_exists db id = true →
  ∃ r, admin_users (service_upsert s id role cb db).2 !! id = Some r
       ∧ au_role r = role ∧ au_created_by r = cb.
Proof.
  intros Hu. unfold service_upsert. destruct (admin_users db !! id).
  - simpl. rewrite lookup_insert_eq. eauto.
  - rewrite Hu. simpl. rewrite lookup_insert_eq. eauto.
Qed.

Lemma service_upsert_refused s id role cb db :
  admin_users db !! id = None → user_exists db id = false →
  service_upsert s id role cb db = (Some ForeignKeyViolation, db).
Proof. intros Hr Hu. unfold service_upsert. by rewrite Hr, Hu. Qed.

Lemma promote_all_step s cb i rest db :
  (promote_all s cb (i :: rest) db).2
  = (promote_all s cb rest (service_upsert s i "super_admin" cb db).2).2.
Proof.
  simpl. destruct (service_upsert s i "super_admin" cb db) as [e db1]. simpl.
  by destruct (promote_all s cb rest db1).
Qed.

Lemma promote_all_users s cb ids db :
  users (promote_all s cb ids db).2 = users db.
Proof.
  revert db. induction ids as [|i rest IH]; intros db; [done|].
  by rewrite promote_all_step, IH, service_upsert_users.
Qed.

Lemma promote_all_keeps s cb ids db k :
  k ∉ ids → admin_users (promote_all s cb ids db).2 !! k = admin_users db !! k.
Proof.
  revert db. induction ids as [|i rest IH]; intros db Hk; [done|].
  apply not_elem_of_cons in Hk as [Hne Hk].
  by rewrite promote_all_step, IH, service_upsert_lookup_ne.
Qed.

Lemma promote_all_script_row s cb ids db i :
  user_exists db i = true →
  script_row cb db i → script_row cb (promote_all s cb ids db).2 i.
Proof.
  revert db. induction ids as [|j rest IH]; intros db Hu Hrow; [done|].
  rewrite promote_all_step. apply IH.
  - unfold user_exists. by rewrite service_upsert_users.
  - destruct (decide (i = j)) as [->|Hne].
    + by apply service_upsert_lookup_eq.
    + unfold script_row. by rewrite service_upsert_lookup_ne.
Qed.

Lemma promote_all_promotes s cb ids db i :
  i ∈ ids → user_exists db i = true →
  script_row cb (promote_all s cb ids db).2 i.
Proof.
  revert db. induction ids as [|j rest IH]; intros db Hin Hu.
  { by apply elem_of_nil in Hin. }
  rewrite promote_all_step.
  assert (Hu1 : user_exists (service_upsert s j "super_admin" cb db).2 i = true).
  { unfold user_exists. by rewrite service_upsert_users. }
  destruct (decide (i = j)) as [->|Hne].
  - apply promote_all_script_row; [done|]. by apply service_upsert_lookup_eq.
  - apply IH; [|done]. apply elem_of_cons in Hin as [?|?]; done.
Qed.

Lemma promote_all_refused s cb ids db :
  (∀ i, i ∈ ids → admin_users db !! i = None ∧ user_exists db i = false) →
  (promote_all s cb ids db).2 = db.
Proof.
  induction ids as [|i rest IH]; intros Hall; [done|].
  rewrite promote_all_step.
  destruct (Hall i) as [Hr Hu]; [apply elem_of_cons; by left|].
  rewrite service_upsert_refused by done. simpl.
  apply IH. intros j Hj. apply Hall. apply elem_of_cons. by right.
Qed.

Lemma elem_of_existing_admins db k :
  k ∈ existing_admins db ↔ is_Some (admin_users db !! k).
Proof.
  unfold existing_admins. rewrite merge_sort_Permutation, list_elem_of_fmap. split.
  - intros ([k' r] & -> & Hin%elem_of_map_to_list). by exists r.
  - intros [r Hr]. exists (k, r). split; [done|]. by apply elem_of_map_to_list.
Qed.

Lemma setup_db s authUsers db :
  (setupUsersAndAdmins s authUsers db).2
  = (promote_all s (first_admin (existing_admins db))
       (filter (λ i, i ∉ existing_admins db) authUsers) db).2.
Proof. by destruct authUsers. Qed.

Lemma setup_keeps s authUsers db k r :
  admin_users db !! k = Some r →
  admin_users (setupUsersAndAdmins s authUsers db).2 !! k = Some r.
Proof.
  intros Hk. rewrite setup_db, promote_all_keeps; [done|].
  intros [Hnot _]%list_elem_of_filter. apply Hnot, elem_of_existing_admins. by eexists.
Qed.

Lemma setup_covers s authUsers db i :
  i ∈ authUsers → user_exists db i = true →
  is_Some (admin_users (setupUsersAndAdmins s authUsers db).2 !! i).
Proof.
  intros Hin Hu. destruct (admin_users db !! i) as [r|] eqn:Hr.
  - erewrite setup_keeps; [|done]. by eexists.
  - rewrite setup_db.
    destruct (promote_all_promotes s (first_admin (existing_admins db))
                (filter (λ i, i ∉ existing_admins db) authUsers) db i)
      as (r & Hrow & _); [|done|by eexists].
    apply list_elem_of_filter. split; [|done].
    rewrite elem_of_existing_admins, Hr. by intros [? ?].
Qed.

(** X8. The setup script only creates RoleAssignments: a row that is
    there when it starts is left as it is, whatever its role, so an
    'admin' is still an 'admin' when the script reports that all users
    are super_admins. Every listed identity that has a [users] row holds a
    RoleAssignment afterwards; one that held none is a super_admin whose
    creator is the oldest admin the script found, or nobody. The [users]
    table is not written, and a second run changes nothing. *)
Theorem setup_script_only_creates
    (s s' : session) (authUsers : list string) (db : Db) :
  let db1 := (setupUsersAndAdmins s authUsers db).2 in
  users db1 = users db
  ∧ (∀ k r, admin_users db !! k = Some r → admin_users db1 !! k = Some r)
  ∧ (∀ i, i ∈ authUsers → user_exists db i = true →
       admin_users db !! i = None →
       ∃ r, admin_users db1 !! i = Some r
            ∧ au_role r = "super_admin"
            ∧ au_created_by r = first_admin (existing_admins db))
  ∧ (∀ k, k ∉ authUsers → admin_users db1 !! k = admin_users db !! k)
  ∧ (setupUsersAndAdmins s' authUsers db1).2 = db1.
Proof.
  intros db1. subst db1. split_and!.
  - by rewrite setup_db, promote_all_users.
  - intros k r. apply setup_keeps.
  - intros i Hin Hu Hr. rewrite setup_db.
    apply promote_all_promotes; [|done].
    apply list_elem_of_filter. split; [|done].
    rewrite elem_of_existing_admins, Hr. by intros [? ?].
  - intros k Hk. rewrite setup_db, promote_all_keeps; [done|].
    by intros [_ ?]%list_elem_of_filter.
  - rewrite (setup_db s'). apply promote_all_refused.
    intros i [Hnot Hin]%list_elem_of_filter.
    rewrite elem_of_existing_admins in Hnot.
    assert (Hnone : admin_users (setupUsersAndAdmins s authUsers db).2 !! i = None).
    { destruct (admin_users _ !! i) eqn:Hr; [|done]. destruct Hnot. by eexists. }
    split; [done|].
    destruct (user_exists (setupUsersAndAdmins s authUsers db).2 i) eqn:Hu; [|done].
    unfold user_exists in Hu. rewrite setup_db, promote_all_users in Hu.
    destruct (setup_covers s authUsers db i Hin Hu) as [r Hr]. congruence.
Qed.

Lemma setup_script_only_creates_witness :
  "bob" ∈ ["alice"; "bob"; "zoe"]
  ∧ user_exists Sample.db "bob" = true
  ∧ admin_users Sample.db !! "bob" = None
  ∧ ∃ r, admin_users
           (setupUsersAndAdmins (Sample.as_user "root" 10) ["alice"; "bob"; "zoe"]
              Sample.db).2 !! "bob" = Some r
         ∧ au_role r = "super_admin"
         ∧ au_created_by r = first_admin (existing_admins Sample.db).
Proof.
  assert (Hin : "bob" ∈ ["alice"; "bob"; "zoe"]).
  { apply (bool_decide_unpack _). vm_compute. exact I. }
  split; [exact Hin|]. split; [reflexivity|]. split; [reflexivity|].
  destruct (setup_script_only_creates (Sample.as_user "root" 10)
              (Sample.as_user "root" 11) ["alice"; "bob"; "zoe"] Sample.db)
    as (_ & _ & H & _).
  apply (H "bob" Hin eq_refl eq_refl).
Defined.

(** The script on the sample database: [alice] stays an admin, [bob]
    becomes a super_admin created by [root], and [zoe], who has no
    [users] row, is refused. *)
Example setup_script_sample :
  (setupUsersAndAdmins (Sample.as_user "root" 10) ["alice"; "bob"; "zoe"] Sample.db).1
  = [("bob", None); ("zoe", Some ForeignKeyViolation)]
  ∧ au_role <$> admin_users
      (setupUsersAndAdmins (Sample.as_user "root" 10) ["alice"; "bob"; "zoe"]
         Sample.db).2 !! "alice" = Some "admin"
  ∧ au_created_by <$> admin_users
      (setupUsersAndAdmins (Sample.as_user "root" 10) ["alice"; "bob"; "zoe"]
         Sample.db).2 !! "bob" = Some (Some "root").
Proof. split_and!; vm_compute; reflexivity. Qed.

(** ** What no sequence of operations does *)

Lemma handlePromote_db s search audit user adminUsers userId role db :
  let db1 := (run (page_world s search audit)
                  (handlePromote user adminUsers userId role) db).1.2 in
  db1 = db
  ∨ ∃ uid, user = Some uid ∧ db1 = (insert_admin_users s userId role uid db).2.
Proof.
  unfold handlePromote. destruct user as [uid|]; [|by left].
  destruct (negb _); [by left|]. right. exists uid. split; [done|].
  cbn [run page_world].
  destruct (insert_admin_users s userId role uid db) as [[e|] db1];
    cbn [run page_world]; [done|].
  by destruct (audit uid "promote_user" "user" userId role).
Qed.

Lemma insert_admin_users_users s id role cb db :
  users (insert_admin_users s id role cb db).2 = users db.
Proof.
  unfold insert_admin_users. destruct (bool_decide _); [done|].
  by destruct (negb _).
Qed.

Lemma insert_admin_users_new_row s id role cb db k :
  is_Some (admin_users (insert_admin_users s id role cb db).2 !! k) →
  is_Some (admin_users db !! k) ∨ (k = id ∧ user_exists db id = true).
Proof.
  unfold insert_admin_users. destruct (bool_decide _); [by left|].
  destruct (user_exists db id) eqn:Hu; simpl; [|by left].
  destruct (decide (k = id)) as [->|Hne]; [by right|].
  rewrite lookup_insert_ne by done. by left.
Qed.

Lemma apply_op_keeps_super_admin o db k r :
  admin_users db !! k = Some r → au_role r = "super_admin" →
  admin_users (apply_op o db) !! k = Some r.
Proof.
  intros Hk Hrole.
  assert (Hsa : is_super_admin db (Some k) = true).
  { apply is_super_admin_true. by exists r. }
  destruct o as [s t nr|s t|s search audit user au uid role|id new|s id new|auth|s ids]; simpl.
  - unfold promote_user_to_admin.
    destruct (promote_with_db_after allowed_roles msg_invalid_role s db t nr)
      as [->|(_ & _ & Ht & _ & ->)]; [done|]. simpl.
    rewrite upsert_admin_lookup_ne; [done|]. intros ->. congruence.
  - destruct (demote_db_after s db t) as [->|(_ & Ht & ->)]; [done|]. simpl.
    rewrite lookup_delete_ne; [done|]. intros ->. congruence.
  - destruct (handlePromote_db s search audit user au uid role db)
      as [->|(c & _ & ->)]; [done|]. by apply insert_admin_users_keeps.
  - unfold handle_new_user. by destruct (users db !! id).
  - done.
  - done.
  - by apply setup_keeps.
Qed.

(** X9. No sequence of the operations that write the two tables
    (promote, demote, the modal's insert, the two triggers, the migration
    and the setup script, with any callers and arguments) changes or
    removes a RoleAssignment whose role is super_admin. *)
Theorem super_admin_rows_are_permanent (ops : list op) (db : Db) (k : string)
    (r : admin_users_row) :
  admin_users db !! k = Some r →
  au_role r = "super_admin" →
  admin_users (apply_ops ops db) !! k = Some r.
Proof.
  revert db. unfold apply_ops.
  induction ops as [|o ops IH]; intros db Hk Hrole; [done|].
  simpl. apply IH; [|done]. by apply apply_op_keeps_super_admin.
Qed.

Lemma super_admin_rows_are_permanent_witness :
  admin_users Sample.db !! "owner" = Some (Sample.grant "super_admin" 2 (Some "root"))
  ∧ admin_users
      (apply_ops [OpDemote (Sample.as_user "root" 10) "owner";
                  OpPromote (Sample.as_user "root" 11) "owner" "user";
                  OpModalPromote (Sample.as_user "root" 11) search_route
                    (λ _ _ _ _ _, None) (Some "root") (Some Scenario.admin_page)
                    "owner" "admin";
                  OpSetup (Sample.as_user "root" 12) ["owner"; "bob"];
                  OpDemote (Sample.as_user "bob" 13) "owner"] Sample.db) !! "owner"
    = Some (Sample.grant "super_admin" 2 (Some "root")).
Proof.
  assert (H : admin_users Sample.db !! "owner"
              = Some (Sample.grant "super_admin" 2 (Some "root"))) by reflexivity.
  split; [exact H|].
  apply (super_admin_rows_are_permanent _ Sample.db "owner" _ H). reflexivity.
Defined.

Lemma apply_op_in_directory o db :
  checks_directory o = true →
  registry_in_directory db → registry_in_directory (apply_op o db).
Proof.
  intros Ho Hfk.
  destruct o as [s t nr|s t|s search audit user au uid role|id new|s id new|auth|s ids];
    try done; simpl.
  - unfold promote_user_to_admin.
    destruct (promote_with_db_after allowed_roles msg_invalid_role s db t nr)
      as [->|(_ & Hu & _ & _ & ->)]; [done|].
    intros k. simpl. destruct (decide (k = t)) as [->|Hne].
    + intros _. by apply bool_decide_eq_true in Hu.
    + rewrite upsert_admin_lookup_ne by done. apply Hfk.
  - destruct (demote_db_after s db t) as [->|(_ & _ & ->)]; [done|].
    intros k. simpl. destruct (decide (k = t)) as [->|Hne].
    + rewrite lookup_delete_eq. by intros [? ?].
    + rewrite lookup_delete_ne by done. apply Hfk.
  - unfold handle_new_user. destruct (users db !! id) eqn:Hid; [done|].
    intros k Hk. simpl in *. destruct (decide (k = id)) as [->|Hne].
    + rewrite lookup_insert_eq. by eexists.
    + rewrite lookup_insert_ne by done. by apply Hfk.
  - intros k Hk. simpl in *. destruct (decide (id = k)) as [->|Hne].
    + rewrite lookup_alter_eq. destruct (Hfk k Hk) as [u ->]. by eexists.
    + rewrite lookup_alter_ne by done. by apply Hfk.
  - intros k Hk. destruct (Hfk k Hk) as [u Hu]. exists u.
    by rewrite migrate_users_lookup, Hu.
Qed.

(** X10. When every RoleAssignment belongs to a User, this still holds
    after any sequence of promote, demote, [handle_new_user],
    [handle_user_signin] and the migration: promote looks the [users] row
    up before it writes, and none of the five deletes a [users] row. (The
    modal's insert and the setup script do no such check of their own.) *)
Theorem registry_stays_in_directory (ops : list op) (db : Db) :
  registry_in_directory db →
  Forall (λ o, checks_directory o = true) ops →
  registry_in_directory (apply_ops ops db).
Proof.
  intros Hfk Hops. revert db Hfk. unfold apply_ops.
  induction Hops as [|o ops Ho _ IH]; intros db Hfk; [done|].
  simpl. by apply IH, apply_op_in_directory.
Qed.

Lemma registry_stays_in_directory_witness :
  registry_in_directory Sample.directory
  ∧ registry_in_directory
      (apply_ops [OpPromote (Sample.as_user "root" 10) "nobody" "admin";
                  OpPromote (Sample.as_user "root" 11) "u-abc" "admin";
                  OpNewUser "dave" Scenario.dave;
                  OpDemote (Sample.as_user "root" 12) "u-abc"] Sample.directory).
Proof.
  assert (Hfk : registry_in_directory Sample.directory).
  { intros k [r Hr]. unfold Sample.directory in *. simpl in *.
    destruct (decide (k = "root")) as [->|Hne]; [by eexists|].
    by rewrite lookup_insert_ne, lookup_empty in Hr. }
  split; [exact Hfk|].
  apply (registry_stays_in_directory _ Sample.directory Hfk).
  repeat constructor.
Defined.

(** ** The routes in front of the gate *)

Lemma run_call {E : Type → Type} {A W X : Type} (h : ∀ X, E X → W → X * W)
    (e : E X) (k : X → io E A) (w : W) :
  run h (Call e k) w
  = ((run h (k (h X e w).1) (h X e w).2).1,
     existT X e :: (run h (k (h X e w).1) (h X e w).2).2).
Proof.
  simpl. destruct (h X e w) as [x w1]. simpl.
  by destruct (run h (k x) w1) as [[a w2] tr].
Qed.

Lemma gate_rpc_promote s db (t r : string) :
  gate_rpc s _ (Rpc "promote_user_to_admin"
                    [("target_user_id", JStr t); ("new_role", JStr r)]) db
  = rpc_reply_of db (promote_user_to_admin s t r db).
Proof. reflexivity. Qed.

Lemma gate_rpc_demote s db (t : string) :
  gate_rpc s _ (Rpc "demote_admin_to_user" [("target_user_id", JStr t)]) db
  = rpc_reply_of db (demote_admin_to_user s t db).
Proof. reflexivity. Qed.

Lemma promote_body_fields (t r : string) :
  get_field (JObj [("userId", JStr t); ("role", JStr r)]) "userId" = Some (JStr t)
  ∧ get_field (JObj [("userId", JStr t); ("role", JStr r)]) "role" = Some (JStr r).
Proof. split; reflexivity. Qed.

Lemma promote_never_succeeds_with_invalid_role s db t r :
  r ∉ allowed_roles → succeeded (promote_user_to_admin s t r db) = false.
Proof.
  intros Hr. unfold promote_user_to_admin.
  destruct (promote_with_cases allowed_roles msg_invalid_role s db t r)
    as [(_ & Ho)|[(_ & _ & Ho)|[(_ & _ & _ & Ho)|[(_ & _ & _ & _ & Ho)
        |(_ & _ & _ & Hin & _)]]]]; [by rewrite Ho..|done].
Qed.

Lemma run_promote_route s db (t r : string) :
  t ≠ "" →
  run (gate_rpc s)
      (PromoteRoute.POST (Some (JObj [("userId", JStr t); ("role", JStr r)]))) db
  = if bool_decide (r = "") then (error_response "Missing userId or role" 400, db, [])
    else if bool_decide (r ∈ allowed_roles) then
      (forwarded ("User successfully promoted to " +:+ r)
         (rpc_reply_of db (promote_user_to_admin s t r db)).1,
       (rpc_reply_of db (promote_user_to_admin s t r db)).2,
       [existT _ (Rpc "promote_user_to_admin"
                      [("target_user_id", JStr t); ("new_role", JStr r)])])
    else (error_response "Invalid role. Must be user, admin, or super_admin" 400, db, []).
Proof.
  intros Ht. unfold PromoteRoute.POST.
  cbn [destructured]. destruct (promote_body_fields t r) as [-> ->].
  cbn [truthy negb orb default]. rewrite (bool_decide_eq_false_2 (t = "")) by done.
  cbn [negb orb includes]. fold allowed_roles.
  destruct (bool_decide (r = "")); [done|].
  destruct (bool_decide (r ∈ allowed_roles)); [|done].
  cbn [negb orb default from_option id]. rewrite run_call, gate_rpc_promote.
  by destruct (rpc_reply_of db (promote_user_to_admin s t r db)) as [[[m|]|] db1].
Qed.

Lemma run_demote_route s db (t : string) :
  t ≠ "" →
  run (gate_rpc s) (DemoteRoute.POST (Some (JObj [("userId", JStr t)]))) db
  = (forwarded "User successfully demoted to regular user"
       (rpc_reply_of db (demote_admin_to_user s t db)).1,
     (rpc_reply_of db (demote_admin_to_user s t db)).2,
     [existT _ (Rpc "demote_admin_to_user" [("target_user_id", JStr t)])]).
Proof.
  intros Ht. unfold DemoteRoute.POST. cbn [destructured].
  change (get_field (JObj [("userId", JStr t)]) "userId") with (Some (JStr t)).
  cbn [truthy negb default]. rewrite (bool_decide_eq_false_2 (t = "")) by done.
  cbn [negb default from_option id]. rewrite run_call, gate_rpc_demote.
  by destruct (rpc_reply_of db (demote_admin_to_user s t db)) as [[[m|]|] db1].
Qed.

Lemma empty_role_not_allowed : "" ∉ allowed_roles.
Proof. apply (bool_decide_unpack _). vm_compute. exact I. Qed.

(** X11. The promote route in front of [promote_user_to_admin], for a
    body with a non-empty [userId] and a string [role]: the database it
    leaves is the one the function leaves; it answers 200 exactly when
    the function succeeds and 400 otherwise; a role outside the list is
    refused by the route itself, before any call and so before the
    caller is checked; and for a role of the list the function's message
    is the [error] of the answer. *)
Theorem promote_route_end_to_end (s : session) (db : Db) (t r : string) :
  t ≠ "" →
  let res := run (gate_rpc s)
               (PromoteRoute.POST (Some (JObj [("userId", JStr t); ("role", JStr r)])))
               db in
  res.1.2 = db_after db (promote_user_to_admin s t r db)
  ∧ (status res.1.1 = 200 ↔ succeeded (promote_user_to_admin s t r db) = true)
  ∧ (succeeded (promote_user_to_admin s t r db) = false → status res.1.1 = 400)
  ∧ (r ∉ allowed_roles → res.2 = [])
  ∧ (r ∈ allowed_roles →
       res.2 = [existT _ (Rpc "promote_user_to_admin"
                              [("target_user_id", JStr t); ("new_role", JStr r)])]
       ∧ ∀ e, promote_user_to_admin s t r db = Abort e →
              res.1.1 = error_response (pg_message e) 400).
Proof.
  intros Ht res. subst res. rewrite run_promote_route by done.
  destruct (decide (r ∈ allowed_roles)) as [Hin|Hin].
  - assert (Hr : r ≠ "") by (intros ->; by apply empty_role_not_allowed).
    rewrite (bool_decide_eq_false_2 (r = "")) by done.
    rewrite (bool_decide_eq_true_2 _ Hin).
    destruct (promote_user_to_admin s t r db) as [b db1|e]; simpl;
      split_and!; try done; try (by intros).
    intros _. split; [done|]. by intros e' [= <-].
  - pose proof (promote_never_succeeds_with_invalid_role s db t r Hin) as Hf.
    assert (Hdb : db_after db (promote_user_to_admin s t r db) = db).
    { by destruct (promote_user_to_admin s t r db). }
    rewrite Hf, Hdb, (bool_decide_eq_false_2 _ Hin).
    destruct (bool_decide (r = "")); simpl; split_and!; done.
Qed.

Lemma promote_route_end_to_end_witness :
  "bob" ≠ ""
  ∧ (run (gate_rpc (Sample.as_user "root" 10))
         (PromoteRoute.POST (Some (JObj [("userId", JStr "bob"); ("role", JStr "admin")])))
         Sample.db).1.2
    = db_after Sample.db
        (promote_user_to_admin (Sample.as_user "root" 10) "bob" "admin" Sample.db).
Proof.
  assert (H : "bob" ≠ "") by discriminate.
  split; [exact H|].
  apply (promote_route_end_to_end (Sample.as_user "root" 10) Sample.db "bob" "admin" H).
Defined.

(** X12. The demote route in front of [demote_admin_to_user], for a body
    with a non-empty [userId]: one call; the database it leaves is the
    one the function leaves; 200 exactly when the function succeeds, and
    otherwise 400 with the function's message. *)
Theorem demote_route_end_to_end (s : session) (db : Db) (t : string) :
  t ≠ "" →
  let res := run (gate_rpc s) (DemoteRoute.POST (Some (JObj [("userId", JStr t)]))) db in
  res.1.2 = db_after db (demote_admin_to_user s t db)
  ∧ res.2 = [existT _ (Rpc "demote_admin_to_user" [("target_user_id", JStr t)])]
  ∧ (status res.1.1 = 200 ↔ succeeded (demote_admin_to_user s t db) = true)
  ∧ ∀ e, demote_admin_to_user s t db = Abort e →
         res.1.1 = error_response (pg_message e) 400.
Proof.
  intros Ht res. subst res. rewrite run_demote_route by done.
  destruct (demote_admin_to_user s t db) as [b db1|e]; simpl;
    split_and!; try done; by intros e' [= <-].
Qed.

Lemma demote_route_end_to_end_witness :
  "alice" ≠ ""
  ∧ (run (gate_rpc (Sample.as_user "root" 10))
         (DemoteRoute.POST (Some (JObj [("userId", JStr "alice")]))) Sample.db).1.2
    = db_after Sample.db
        (demote_admin_to_user (Sample.as_user "root" 10) "alice" Sample.db).
Proof.
  assert (H : "alice" ≠ "") by discriminate.
  split; [exact H|].
  apply (demote_route_end_to_end (Sample.as_user "root" 10) Sample.db "alice" H).
Defined.

(** X13. The list route in front of [get_all_users]: one call, no
    write, and for every caller and every database the answer 500 with
    'Failed to fetch users', because the function fails for everyone; the
    function's message is not passed on, unlike in the promote and demote
    routes. Against any store: one call; an error the call resolves with
    gives that same 500 answer, and rows without error give 200 with one
    entry per row, in the same order. *)
Theorem list_route_end_to_end (s : session) (db : Db) :
  run (gate_rows s) ListRoute.GET db
  = ({| status := 500; body := JObj [("error", JStr "Failed to fetch users")] |},
     db, [existT _ (RpcRows "get_all_users")])
  ∧ ∀ (W : Type) (h : ∀ X, listE X → W → X * W) (w : W),
      (run h ListRoute.GET w).2 = [existT _ (RpcRows "get_all_users")]
      ∧ (run h ListRoute.GET w).1.2 = (h _ (RpcRows "get_all_users") w).2
      ∧ (∀ data message,
           (h _ (RpcRows "get_all_users") w).1 = RowsResolved data (Some message) →
           (run h ListRoute.GET w).1.1
           = {| status := 500;
                body := JObj [("error", JStr "Failed to fetch users")] |})
      ∧ (∀ rows,
           (h _ (RpcRows "get_all_users") w).1 = RowsResolved (Some rows) None →
           (run h ListRoute.GET w).1.1
           = {| status := 200;
                body := JObj [("adminUsers", JArr (list_entry <$> rows))] |}).
Proof.
  split.
  - unfold ListRoute.GET. rewrite run_call.
    change (gate_rows s rows_reply (RpcRows "get_all_users") db)
      with (match get_all_users s db with
            | Return rows db' => (RowsResolved (Some rows) None, db')
            | Abort e => (RowsResolved None (Some (pg_message e)), db)
            end).
    unfold get_all_users. by rewrite guard_reference_is_ambiguous.
  - intros W h w. unfold ListRoute.GET. rewrite run_call.
    destruct (h rows_reply (RpcRows "get_all_users") w) as [x w1]. simpl.
    split_and!.
    + by destruct x as [[rows|] [m|]|].
    + by destruct x as [[rows|] [m|]|].
    + intros data message ->. by destruct data.
    + by intros rows ->.
Qed.

Lemma list_route_end_to_end_witness :
  has_role_in Sample.db (auth_uid (Sample.as_user "alice" 10)) ["admin"; "super_admin"]
  = true
  ∧ run (gate_rows (Sample.as_user "alice" 10)) ListRoute.GET Sample.db
    = ({| status := 500; body := JObj [("error", JStr "Failed to fetch users")] |},
       Sample.db, [existT _ (RpcRows "get_all_users")]).
Proof.
  split; [reflexivity|].
  apply (list_route_end_to_end (Sample.as_user "alice" 10) Sample.db).
Defined.

(** X14. Whatever the request body and whatever the store answers, the
    promote and demote routes answer with status 200, 400 or 500 and
    issue at most one call; an answer 200 means that exactly one call was
    issued and that it resolved without error; and when no call is issued
    the store is as it was. *)
Theorem routes_answer_200_400_500
    {W : Type} (h : ∀ X, rpcE X → W → X * W) (w : W) (request_body : option json)
    (route : option json → io rpcE response) :
  route = PromoteRoute.POST ∨ route = DemoteRoute.POST →
  let res := run h (route request_body) w in
  (status res.1.1 = 200 ∨ status res.1.1 = 400 ∨ status res.1.1 = 500)
  ∧ (res.2 = [] ∧ res.1.2 = w ∧ status res.1.1 ≠ 200
     ∨ ∃ fn args, res.2 = [existT _ (Rpc fn args)]
          ∧ res.1.2 = (h _ (Rpc fn args) w).2
          ∧ (status res.1.1 = 200 ↔ (h _ (Rpc fn args) w).1 = RpcResolved None)).
Proof.
  intros [-> | ->] res; subst res.
  - unfold PromoteRoute.POST.
    destruct (destructured request_body) as [b|]; [|simpl; split; [auto|left; done]].
    destruct (negb (truthy (get_field b "userId")) || negb (truthy (get_field b "role")));
      [simpl; split; [auto|left; done]|].
    destruct (negb (includes ["user"; "admin"; "super_admin"] (get_field b "role")));
      [simpl; split; [auto|left; done]|].
    rewrite run_call.
    destruct (h rpc_reply _ w) as [[[m|]|] w1] eqn:Hh; simpl;
      (split; [auto|right; eexists _, _; rewrite Hh; simpl; split_and!; done]).
  - unfold DemoteRoute.POST.
    destruct (destructured request_body) as [b|]; [|simpl; split; [auto|left; done]].
    destruct (negb (truthy (get_field b "userId")));
      [simpl; split; [auto|left; done]|].
    rewrite run_call.
    destruct (h rpc_reply _ w) as [[[m|]|] w1] eqn:Hh; simpl;
      (split; [auto|right; eexists _, _; rewrite Hh; simpl; split_and!; done]).
Qed.

Lemma routes_answer_200_400_500_witness :
  status (run (gate_rpc (Sample.as_user "root" 10))
              (DemoteRoute.POST (Some (JArr []))) Sample.db).1.1 = 200
  ∨ status (run (gate_rpc (Sample.as_user "root" 10))
              (DemoteRoute.POST (Some (JArr []))) Sample.db).1.1 = 400
  ∨ status (run (gate_rpc (Sample.as_user "root" 10))
              (DemoteRoute.POST (Some (JArr []))) Sample.db).1.1 = 500.
Proof.
  apply (routes_answer_200_400_500 (gate_rpc (Sample.as_user "root" 10)) Sample.db
           (Some (JArr [])) DemoteRoute.POST).
  right. reflexivity.
Defined.

(** ** The buttons of the list, down to the database *)

Lemma ui_world_promote s db (b : json) :
  ui_world s _ (FetchRoute "/api/admin/users/promote" b) db
  = (route_reply_of (run (gate_rpc s) (PromoteRoute.POST (Some b)) db).1.1,
     (run (gate_rpc s) (PromoteRoute.POST (Some b)) db).1.2).
Proof.
  cbn [ui_world].
  change (bool_decide ("/api/admin/users/promote" = "/api/admin/users/promote")) with true.
  cbn iota. by destruct (run (gate_rpc s) (PromoteRoute.POST (Some b)) db) as [[r db1] tr].
Qed.

Lemma ui_world_demote s db (b : json) :
  ui_world s _ (FetchRoute "/api/admin/users/demote" b) db
  = (route_reply_of (run (gate_rpc s) (DemoteRoute.POST (Some b)) db).1.1,
     (run (gate_rpc s) (DemoteRoute.POST (Some b)) db).1.2).
Proof.
  cbn [ui_world].
  change (bool_decide ("/api/admin/users/demote" = "/api/admin/users/promote")) with false.
  change (bool_decide ("/api/admin/users/demote" = "/api/admin/users/demote")) with true.
  cbn iota. by destruct (run (gate_rpc s) (DemoteRoute.POST (Some b)) db) as [[r db1] tr].
Qed.

Lemma promote_abort_message allowed invalid_msg s db t r e :
  invalid_msg ≠ "" →
  promote_with allowed invalid_msg s t r db = Abort e → pg_message e ≠ "".
Proof.
  intros Hm.
  destruct (promote_with_cases allowed invalid_msg s db t r)
    as [(_ & ->)|[(_ & _ & ->)|[(_ & _ & _ & ->)|[(_ & _ & _ & _ & ->)
        |(_ & _ & _ & _ & ->)]]]]; intros [= <-]; done.
Qed.

Lemma demote_abort_message s db t e :
  demote_admin_to_user s t db = Abort e → pg_message e ≠ "".
Proof.
  unfold demote_admin_to_user.
  destruct (negb _); [by intros [= <-]|].
  destruct (is_super_admin db (Some t)); [by intros [= <-]|done].
Qed.

Lemma error_or_message m fallback : m ≠ "" → error_or (Some m) fallback = m.
Proof. intros Hm. unfold error_or. by rewrite bool_decide_eq_false_2. Qed.

(** X15. [handlePromoteUser], through the promote route, down to
    [promote_user_to_admin], for a non-empty [userId]: the database it
    leaves is the one the function leaves. When the function succeeds the
    page refreshes the list and announces the promotion; when it fails
    for a role of the list the page shows the function's own message;
    for a role outside the list it shows an error and nothing was
    called. *)
Theorem handlePromoteUser_end_to_end (s : session) (db : Db) (userId role : string) :
  userId ≠ "" →
  let res := run (ui_world s) (handlePromoteUser userId role) db in
  let request := existT _ (FetchRoute "/api/admin/users/promote"
                             (JObj [("userId", JStr userId); ("role", JStr role)])) in
  res.1.2 = db_after db (promote_user_to_admin s userId role db)
  ∧ (succeeded (promote_user_to_admin s userId role db) = true →
       res.2 = [request;
                existT _ (UiInvalidateQueries "admin-users");
                existT _ (UiAlert ("User successfully promoted to " +:+ role +:+ "!"))])
  ∧ (∀ e, promote_user_to_admin s userId role db = Abort e →
       role ∈ allowed_roles →
       res.2 = [request;
                existT _ (UiConsoleError "Error promoting user:" (pg_message e));
                existT _ (UiAlert ("Error: " +:+ pg_message e))])
  ∧ (role ∉ allowed_roles →
       ∃ m, res.2 = [request;
                     existT _ (UiConsoleError "Error promoting user:" m);
                     existT _ (UiAlert ("Error: " +:+ m))]).
Proof.
  intros Hid res request. subst res request. unfold handlePromoteUser.
  rewrite run_call, ui_world_promote, run_promote_route by done.
  destruct (decide (role ∈ allowed_roles)) as [Hin|Hin].
  - assert (Hr : role ≠ "") by (intros ->; by apply empty_role_not_allowed).
    rewrite (bool_decide_eq_false_2 (role = "")) by done.
    rewrite (bool_decide_eq_true_2 _ Hin).
    destruct (promote_user_to_admin s userId role db) as [b db1|e] eqn:Hp.
    + simpl. split_and!; done.
    + apply promote_abort_message in Hp; [|done].
      cbn [rpc_reply_of fst snd forwarded route_reply_of response_ok status body].
      change (get_field (JObj [("error", JStr (pg_message e))]) "error")
        with (Some (JStr (pg_message e))).
      cbn [Z.leb Z.compare Pos.compare Pos.compare_cont andb].
      unfold report_failure. rewrite error_or_message by done.
      simpl. split_and!; try done. by intros e' [= <-].
  - pose proof (promote_never_succeeds_with_invalid_role s db userId role Hin) as Hf.
    assert (Hdb : db_after db (promote_user_to_admin s userId role db) = db).
    { by destruct (promote_user_to_admin s userId role db). }
    rewrite Hf, Hdb, (bool_decide_eq_false_2 _ Hin).
    destruct (bool_decide (role = "")); simpl; split_and!; try done; eauto.
Qed.

Lemma handlePromoteUser_end_to_end_witness :
  "bob" ≠ ""
  ∧ (run (ui_world (Sample.as_user "root" 10)) (handlePromoteUser "bob" "admin")
         Sample.db).1.2
    = db_after Sample.db
        (promote_user_to_admin (Sample.as_user "root" 10) "bob" "admin" Sample.db).
Proof.
  assert (H : "bob" ≠ "") by discriminate.
  split; [exact H|].
  apply (handlePromoteUser_end_to_end (Sample.as_user "root" 10) Sample.db
           "bob" "admin" H).
Defined.

(** X16. [handleDemoteUser], through the demote route, down to
    [demote_admin_to_user], for a non-empty [userId]: the database it
    leaves is the one the function leaves; on success the page refreshes
    the list and announces the demotion, on failure it shows the
    function's own message. *)
Theorem handleDemoteUser_end_to_end (s : session) (db : Db) (userId : string) :
  userId ≠ "" →
  let res := run (ui_world s) (handleDemoteUser userId) db in
  let request := existT _ (FetchRoute "/api/admin/users/demote"
                             (JObj [("userId", JStr userId)])) in
  res.1.2 = db_after db (demote_admin_to_user s userId db)
  ∧ (succeeded (demote_admin_to_user s userId db) = true →
       res.2 = [request;
                existT _ (UiInvalidateQueries "admin-users");
                existT _ (UiAlert "User successfully demoted to regular user!")])
  ∧ (∀ e, demote_admin_to_user s userId db = Abort e →
       res.2 = [request;
                existT _ (UiConsoleError "Error demoting user:" (pg_message e));
                existT _ (UiAlert ("Error: " +:+ pg_message e))]).
Proof.
  intros Hid res request. subst res request. unfold handleDemoteUser.
  rewrite run_call, ui_world_demote, run_demote_route by done.
  destruct (demote_admin_to_user s userId db) as [b db1|e] eqn:Hd.
  - simpl. split_and!; try done.
  - apply demote_abort_message in Hd.
    cbn [rpc_reply_of fst snd forwarded route_reply_of response_ok status body].
    change (get_field (JObj [("error", JStr (pg_message e))]) "error")
      with (Some (JStr (pg_message e))).
    cbn [Z.leb Z.compare Pos.compare Pos.compare_cont andb].
    unfold report_failure. rewrite error_or_message by done.
    simpl. split_and!; try done. by intros e' [= <-].
Qed.

Lemma handleDemoteUser_end_to_end_witness :
  "alice" ≠ ""
  ∧ (run (ui_world (Sample.as_user "root" 10)) (handleDemoteUser "alice") Sample.db).1.2
    = db_after Sample.db
        (demote_admin_to_user (Sample.as_user "root" 10) "alice" Sample.db).
Proof.
  assert (H : "alice" ≠ "") by discriminate.
  split; [exact H|].
  apply (handleDemoteUser_end_to_end (Sample.as_user "root" 10) Sample.db "alice" H).
Defined.

(** ** The list shown by the admin page *)

Lemma sort_insert_perm {A} (cmp : A → A → Z) x l : sort_insert cmp x l ≡ₚ x :: l.
Proof.
  induction l as [|y l IH]; [done|]. simpl.
  destruct (cmp x y <=? 0)%Z; [done|]. rewrite IH. apply Permutation_swap.
Qed.

Lemma array_sort_perm {A} (cmp : A → A → Z) l : array_sort cmp l ≡ₚ l.
Proof.
  induction l as [|x l IH]; [done|]. simpl. by rewrite sort_insert_perm, IH.
Qed.

Lemma array_sort_keeps_ties {A} (cmp : A → A → Z) l :
  (∀ x y, cmp x y = 0%Z) → array_sort cmp l = l.
Proof.
  intros Hz. induction l as [|x l IH]; [done|]. simpl. rewrite IH.
  destruct l as [|y l]; [done|]. simpl. by rewrite Hz.
Qed.

Section SortBy.
Context {A : Type} (cmp : A → A → Z) (R : relation A).
Hypothesis cmp_le : ∀ x y, (cmp x y ≤ 0)%Z → R x y.
Hypothesis cmp_gt : ∀ x y, (0 < cmp x y)%Z → R y x.

Lemma sort_insert_hd x y l : R y x → HdRel R y l → HdRel R y (sort_insert cmp x l).
Proof.
  intros Hyx Hhd. destruct l as [|z l]; simpl; [by constructor|].
  destruct (cmp x z <=? 0)%Z; constructor; [done|].
  by inversion Hhd.
Qed.

Lemma sort_insert_sorted x l : Sorted R l → Sorted R (sort_insert cmp x l).
Proof.
  induction 1 as [|y l Hs IH Hhd]; simpl; [by repeat constructor|].
  destruct (cmp x y <=? 0)%Z eqn:Hc.
  - apply Z.leb_le in Hc. repeat constructor; auto.
  - apply Z.leb_gt in Hc. constructor; [done|].
    apply sort_insert_hd; auto.
Qed.

Lemma array_sort_sorted l : Sorted R (array_sort cmp l).
Proof.
  induction l as [|x l IH]; simpl; [constructor|]. by apply sort_insert_sorted.
Qed.
End SortBy.

(** X17. With a role selected, [filteredUsers] shows exactly the users
    of [adminUsers] that carry this role, each as often as it occurs
    there, and leaves [adminUsers] as it is; sorted by 'newest' the list
    is in descending order of [created_at], by 'oldest' in ascending
    order; and a sort key that the [switch] does not know leaves the
    order of [adminUsers]. *)
Theorem filteredUsers_by_role
    (localeCompare : string → string → Z)
    (l : list admin_user_view) (filterRole sortBy : string) :
  filterRole ≠ "all" →
  let res := filteredUsers localeCompare (Some l) filterRole sortBy in
  res.2 = Some l
  ∧ res.1 ≡ₚ filter (λ au, v_role au = filterRole) l
  ∧ (∀ au, au ∈ res.1 ↔ au ∈ l ∧ v_role au = filterRole)
  ∧ (sortBy = "newest" →
       StronglySorted (λ a b, (v_created_at b ≤ v_created_at a)%Z) res.1)
  ∧ (sortBy = "oldest" →
       StronglySorted (λ a b, (v_created_at a ≤ v_created_at b)%Z) res.1)
  ∧ (sortBy ∉ ["newest"; "oldest"; "email"; "role"] →
       res.1 = filter (λ au, v_role au = filterRole) l).
Proof.
  intros Hf res. subst res. unfold filteredUsers.
  rewrite (bool_decide_eq_false_2 _ Hf). cbn [fst snd].
  split; [done|]. split; [apply array_sort_perm|]. split_and!.
  - intros au. rewrite array_sort_perm, list_elem_of_filter. tauto.
  - intros ->. apply Sorted_StronglySorted.
    { intros a b c. lia. }
    apply array_sort_sorted; intros a b; unfold compare_by; simpl; lia.
  - intros ->. apply Sorted_StronglySorted.
    { intros a b c. lia. }
    apply array_sort_sorted; intros a b; unfold compare_by; simpl; lia.
  - intros Hs. apply array_sort_keeps_ties. intros a b. unfold compare_by.
    rewrite !elem_of_cons in Hs.
    repeat (rewrite bool_decide_eq_false_2; [|intros ->; apply Hs; tauto]). done.
Qed.

Lemma filteredUsers_by_role_witness :
  "admin" ≠ "all"
  ∧ (filteredUsers (λ _ _, 0%Z) (Some Scenario.admin_page) "admin" "newest").1
    ≡ₚ filter (λ au, v_role au = "admin") Scenario.admin_page.
Proof.
  assert (H : "admin" ≠ "all") by discriminate.
  split; [exact H|].
  apply (filteredUsers_by_role (λ _ _, 0%Z) Scenario.admin_page "admin" "newest" H).
Defined.

Lemma NoDup_fmap_eq {A B} (f : A → B) (l : list A) x y :
  NoDup (f <$> l) → x ∈ l → y ∈ l → f x = f y → x = y.
Proof.
  induction l as [|z l IH]; intros Hnd Hx Hy Hf; [by apply elem_of_nil in Hx|].
  rewrite fmap_cons in Hnd. apply NoDup_cons in Hnd as [Hz Hnd].
  apply elem_of_cons in Hx as [->|Hx]; apply elem_of_cons in Hy as [->|Hy].
  - done.
  - destruct Hz. rewrite Hf. by apply list_elem_of_fmap_2.
  - destruct Hz. rewrite <-Hf. by apply list_elem_of_fmap_2.
  - by apply IH.
Qed.

Lemma current_user_role_Some l uid r :
  NoDup (v_id <$> l) →
  current_user_role (Some l) uid = Some r
  ↔ ∃ au, au ∈ l ∧ v_id au = uid ∧ v_role au = r.
Proof.
  intros Hnd. unfold current_user_role. simpl. split.
  - destruct (list_find _ l) as [[i au]|] eqn:Hfind; [|done].
    intros [= <-]. apply list_find_Some in Hfind as (Hi & Hid & _).
    exists au. split; [|done]. apply list_elem_of_lookup. by exists i.
  - intros (au & Hin & Hid & Hrole).
    destruct (list_find_elem_of (λ au, v_id au = uid) l au Hin Hid) as [[i au'] Hfind].
    rewrite Hfind. simpl. apply list_find_Some in Hfind as (Hi & Hid' & _).
    assert (au' = au) as ->; [|by rewrite Hrole].
    apply (NoDup_fmap_eq v_id l); [done| |done|congruence].
    apply list_elem_of_lookup. by exists i.
Qed.

Lemma current_user_role_perm l l' uid :
  l ≡ₚ l' → NoDup (v_id <$> l) →
  current_user_role (Some l') uid = current_user_role (Some l) uid.
Proof.
  intros Hperm Hnd.
  assert (Hnd' : NoDup (v_id <$> l')) by by rewrite <-Hperm.
  apply option_eq. intros r. rewrite !current_user_role_Some by done.
  by setoid_rewrite Hperm.
Qed.

Lemma handleSearch_perm {W} (h : ∀ X, pageE X → W → X * W) (w : W) l l' q :
  l ≡ₚ l' →
  run h (handleSearch (Some l') q) w = run h (handleSearch (Some l) q) w.
Proof.
  intros Hperm. unfold handleSearch.
  destruct (String.length q <? 3)%nat; [done|].
  assert (Hf : ∀ users : list search_user,
            filter (λ u, su_id u ∉ v_id <$> l') users
            = filter (λ u, su_id u ∉ v_id <$> l) users).
  { intros users. apply list_filter_iff. intros u. by rewrite Hperm. }
  unfold searchUsers. destruct (bool_decide (q = "") || _); simpl.
  - by rewrite Hf.
  - destruct (h fetch_reply (FetchSearch q) w) as [[|[|] users] w1]; simpl;
      try (destruct (h unit _ w1) as [[] w2]; simpl); by rewrite ?Hf.
Qed.

(** X18. With no role selected, [filteredUsers] sorts [adminUsers]
    itself: afterwards the page's [adminUsers] is the list shown, a
    reordering of what it was. The guard of [handlePromote] and the
    filter of [handleSearch] read [adminUsers] too; when every user
    occurs once in it, both give the same before and after the sort. *)
Theorem filteredUsers_sorts_adminUsers
    (localeCompare : string → string → Z)
    (l : list admin_user_view) (sortBy : string) :
  let res := filteredUsers localeCompare (Some l) "all" sortBy in
  res.2 = Some res.1
  ∧ res.1 ≡ₚ l
  ∧ (sortBy = "newest" →
       StronglySorted (λ a b, (v_created_at b ≤ v_created_at a)%Z) res.1)
  ∧ (NoDup (v_id <$> l) →
       ∀ uid, current_user_role res.2 uid = current_user_role (Some l) uid)
  ∧ ∀ (W : Type) (h : ∀ X, pageE X → W → X * W) (w : W) (q : string),
      run h (handleSearch res.2 q) w = run h (handleSearch (Some l) q) w.
Proof.
  intros res. subst res. unfold filteredUsers.
  change (bool_decide ("all" = "all")) with true. cbn [fst snd].
  pose proof (array_sort_perm (compare_by localeCompare sortBy) l) as Hperm.
  split; [done|]. split; [done|]. split_and!.
  - intros ->. apply Sorted_StronglySorted.
    { intros a b c. lia. }
    apply array_sort_sorted; intros a b; unfold compare_by; simpl; lia.
  - intros Hnd uid. by apply current_user_role_perm.
  - intros W h w q. by apply handleSearch_perm.
Qed.

Lemma filteredUsers_sorts_adminUsers_witness :
  NoDup (v_id <$> Scenario.admin_page)
  ∧ current_user_role
      (filteredUsers (λ _ _, 0%Z) (Some Scenario.admin_page) "all" "oldest").2 "alice"
    = current_user_role (Some Scenario.admin_page) "alice".
Proof.
  assert (H : NoDup (v_id <$> Scenario.admin_page)).
  { apply (bool_decide_unpack _). vm_compute. exact I. }
  split; [exact H|].
  destruct (filteredUsers_sorts_adminUsers (λ _ _, 0%Z) Scenario.admin_page "oldest")
    as (_ & _ & _ & Hrole & _).
  apply (Hrole H).
Defined.

(** The sample value of [adminUsers], sorted oldest first: the order of
    [adminUsers] itself is no longer the one it had. *)
Example filteredUsers_reorders_the_cache :
  v_id <$> Scenario.admin_page = ["bob"; "carol"; "alice"; "owner"; "root"]
  ∧ match (filteredUsers (λ _ _, 0%Z) (Some Scenario.admin_page) "all" "oldest").2 with
    | Some l => v_id <$> l
    | None => []
    end
    = ["root"; "owner"; "alice"; "bob"; "carol"].
Proof. split; vm_compute; reflexivity. Qed.

(** ** The two ways to promote from the page *)

(** X19. For a user without RoleAssignment, the modal's direct insert
    leaves the tables [users] and [admin_users] as
    [promote_user_to_admin] leaves them, provided the signed-in user is
    the caller of the session, is a super_admin both in [adminUsers] and
    in the database, the target has a [users] row, and the role is one
    the function accepts. The modal does more than the function: after
    the insert it sends an insert to [admin_audit_log], a table the
    function never writes, and goes on when that insert fails. *)
Theorem modal_insert_agrees_with_gate
    (s : session) (search : string → Db → fetch_reply)
    (audit : string → string → string → string → string → option pg_error)
    (adminUsers : option (list admin_user_view)) (uid userId role : string) (db : Db) :
  auth_uid s = Some uid →
  current_user_role adminUsers uid = Some "super_admin" →
  is_super_admin db (Some uid) = true →
  user_exists db userId = true →
  admin_users db !! userId = None →
  role ∈ allowed_roles →
  let res := run (page_world s search audit)
                 (handlePromote (Some uid) adminUsers userId role) db in
  users res.1.2 = users (db_after db (promote_user_to_admin s userId role db))
  ∧ admin_users res.1.2
    = admin_users (db_after db (promote_user_to_admin s userId role db))
  ∧ ∃ rest,
      res.2 = existT _ (InsertAdminUsers userId role uid)
              :: existT _ (InsertAuditLog uid "promote_user" "user" userId role)
              :: rest
      ∧ existT _ (Alert ("User successfully promoted to "
                          +:+ promoted_label role +:+ "!")) ∈ rest.
Proof.
  intros Hs Hcache Hsa Hu Hnone Hrole res. subst res.
  assert (Ht : is_super_admin db (Some userId) = false).
  { unfold is_super_admin, has_role_in. by rewrite Hnone. }
  unfold promote_user_to_admin. rewrite promote_with_ok; [|by rewrite Hs|done..].
  unfold handlePromote. rewrite (bool_decide_eq_true_2 _ Hcache).
  cbn [negb run page_world]. unfold insert_admin_users.
  rewrite Hnone, Hu. rewrite bool_decide_eq_false_2 by (by intros [? ?]).
  cbn [negb run page_world]. unfold upsert_admin. rewrite Hnone, Hs.
  destruct (audit uid "promote_user" "user" userId role); simpl;
    (split; [done|]); (split; [done|]); eexists; (split; [done|]);
    rewrite !elem_of_cons; auto.
Qed.

Lemma modal_insert_agrees_with_gate_witness :
  current_user_role (Some Scenario.admin_page) "root" = Some "super_admin"
  ∧ admin_users
      (run (page_world (Sample.as_user "root" 10) search_route (λ _ _ _ _ _, None))
         (handlePromote (Some "root") (Some Scenario.admin_page) "bob" "admin")
         Sample.db).1.2
    = admin_users
        (db_after Sample.db
           (promote_user_to_admin (Sample.as_user "root" 10) "bob" "admin" Sample.db)).
Proof.
  assert (H : current_user_role (Some Scenario.admin_page) "root" = Some "super_admin")
    by (vm_compute; reflexivity).
  split; [exact H|].
  assert (Hrole : "admin" ∈ allowed_roles).
  { apply (bool_decide_unpack _). vm_compute. exact I. }
  apply (modal_insert_agrees_with_gate (Sample.as_user "root" 10) search_route
           (λ _ _ _ _ _, None) (Some Scenario.admin_page) "root" "bob" "admin"
           Sample.db eq_refl H eq_refl eq_refl eq_refl Hrole).
Defined.

(** ** What a search can return *)

(** X20. [handleSearch] never writes, and every user it hands to the
    page was in the [users] member of an answer of the search route with
    [ok] set, to a query of three characters or more: a thrown error or
    an answer that is not [ok] gives the empty list. While [adminUsers]
    is not loaded nothing is filtered out: the result is the route's
    answer. *)
Theorem handleSearch_results
    (s : session) (search : string → Db → fetch_reply)
    (audit : string → string → string → string → string → option pg_error)
    (adminUsers : option (list admin_user_view)) (q : string) (db : Db) :
  let res := run (page_world s search audit) (handleSearch adminUsers q) db in
  res.1.2 = db
  ∧ (∀ u, u ∈ res.1.1 →
       (3 ≤ String.length q)%nat
       ∧ ∃ users, search q db = FetchResponse true (Some users) ∧ u ∈ users)
  ∧ (adminUsers = None → (3 ≤ String.length q)%nat →
       ∀ users, search q db = FetchResponse true (Some users) → res.1.1 = users).
Proof.
  intros res. subst res. unfold handleSearch, searchUsers.
  destruct (String.length q <? 3)%nat eqn:Hlen.
  { apply Nat.ltb_lt in Hlen. simpl. split; [done|]. split.
    - by intros u ?%elem_of_nil.
    - intros _ Hge. lia. }
  apply Nat.ltb_ge in Hlen.
  assert (Hq : q ≠ "") by (intros ->; simpl in Hlen; lia).
  rewrite (bool_decide_eq_false_2 _ Hq). cbn [orb io_bind run page_world].
  destruct (search q db) as [|[|] users] eqn:Hsearch;
    cbn [io_bind run page_world fst snd].
  - split; [done|]. split; [by intros u ?%elem_of_nil|]. by intros.
  - split; [done|]. split.
    + intros u [_ Hu]%list_elem_of_filter. split; [done|].
      destruct users as [users|]; [|by apply elem_of_nil in Hu]. eauto.
    + intros -> _ users' [= ->]. simpl.
      clear. induction users' as [|u l IH]; [done|].
      rewrite filter_cons_True; [by rewrite IH|]. by intros ?%elem_of_nil.
  - split; [done|]. split; [by intros u ?%elem_of_nil|]. by intros.
Qed.

Lemma handleSearch_results_witness :
  (3 ≤ String.length "abc")%nat
  ∧ (run (page_world (Sample.as_user "root" 10) search_route (λ _ _ _ _ _, None))
         (handleSearch None "abc") Sample.directory).1.1
    = [{| su_id := "u-abc"; su_email := Some "abcuser@x.com";
          su_created_at := Some 2 |}].
Proof.
  assert (H : (3 ≤ String.length "abc")%nat) by (simpl; lia).
  split; [exact H|].
  destruct (handleSearch_results (Sample.as_user "root" 10) search_route
              (λ _ _ _ _ _, None) None "abc" Sample.directory) as (_ & _ & Hres).
  apply (Hres eq_refl H). vm_compute. reflexivity.
Defined.

(** ** What the gate denies to everyone *)

(** X21. Nobody changes their own role through the gate: a call of
    promote or demote whose target is the caller fails, whoever the
    caller is and whatever the role asked for, and changes nothing. *)
Theorem no_caller_changes_own_role (s : session) (db : Db) (c new_role : string) :
  auth_uid s = Some c →
  succeeded (promote_user_to_admin s c new_role db) = false
  ∧ succeeded (demote_admin_to_user s c db) = false
  ∧ db_after db (promote_user_to_admin s c new_role db) = db
  ∧ db_after db (demote_admin_to_user s c db) = db.
Proof.
  intros Hc. unfold promote_user_to_admin.
  destruct (promote_with_cases allowed_roles msg_invalid_role s db c new_role)
    as [(_ & Ho)|[(_ & _ & Ho)|[(_ & _ & _ & Ho)|[(Hs & _ & Ht & _)
        |(Hs & _ & Ht & _)]]]];
    try (rewrite Hc in Hs; congruence); rewrite Ho;
    (destruct (demote_db_after s db c) as [Hd|(Hs & Ht & _)];
      [|rewrite Hc in Hs; congruence]);
    (split; [done|]); (split; [|by rewrite Hd]);
    unfold demote_admin_to_user; rewrite Hc;
    destruct (is_super_admin db (Some c)); done.
Qed.

Lemma no_caller_changes_own_role_witness :
  auth_uid (Sample.as_user "root" 10) = Some "root"
  ∧ succeeded (demote_admin_to_user (Sample.as_user "root" 10) "root" Sample.db) = false
  ∧ succeeded (promote_user_to_admin (Sample.as_user "alice" 10) "alice" "super_admin"
                 Sample.db) = false.
Proof.
  split; [reflexivity|]. split.
  - apply (no_caller_changes_own_role (Sample.as_user "root" 10) Sample.db
             "root" "admin" eq_refl).
  - apply (no_caller_changes_own_role (Sample.as_user "alice" 10) Sample.db
             "alice" "super_admin" eq_refl).
Defined.

Lemma no_super_admin_no_caller db :
  (∀ k r, admin_users db !! k = Some r → au_role r ≠ "super_admin") →
  ∀ i, is_super_admin db i = false.
Proof.
  intros Hall [c|]; [|done]. unfold is_super_admin, has_role_in.
  destruct (admin_users db !! c) as [r|] eqn:Hr; [|done].
  apply bool_decide_eq_false. intros Hsa%list_elem_of_singleton.
  by apply (Hall c r Hr).
Qed.

(** X22. While no RoleAssignment has role super_admin, the gate is
    inert: no sequence of promote and demote calls, by any callers,
    changes the database. The first super_admin has to come from
    elsewhere (the setup script). *)
Theorem gate_is_inert_without_super_admin (ops : list op) (db : Db) :
  (∀ k r, admin_users db !! k = Some r → au_role r ≠ "super_admin") →
  Forall (λ o, is_gate_call o = true) ops →
  apply_ops ops db = db.
Proof.
  intros Hall Hops. unfold apply_ops.
  induction Hops as [|o ops Ho _ IH]; [done|]. simpl.
  assert (Hstep : apply_op o db = db); [|by rewrite Hstep].
  pose proof (no_super_admin_no_caller db Hall) as Hno.
  destruct o as [s t nr|s t| | | | |]; try done; simpl.
  - unfold promote_user_to_admin. by rewrite promote_with_unauthorized.
  - by rewrite demote_unauthorized.
Qed.

Lemma gate_is_inert_without_super_admin_witness :
  (∀ k r, admin_users Scenario.no_super_admin !! k = Some r →
          au_role r ≠ "super_admin")
  ∧ apply_ops [OpPromote (Sample.as_user "alice" 10) "alice" "super_admin";
               OpPromote (Sample.as_user "alice" 11) "bob" "admin";
               OpPromote (Sample.as_user "bob" 12) "carol" "admin";
               OpDemote (Sample.anonymous 13) "alice"] Scenario.no_super_admin
    = Scenario.no_super_admin.
Proof.
  assert (H : ∀ k r, admin_users Scenario.no_super_admin !! k = Some r →
                     au_role r ≠ "super_admin").
  { apply (bool_decide_unpack
             (map_Forall (λ _ r, au_role r ≠ "super_admin")
                (admin_users Scenario.no_super_admin))).
    vm_compute. exact I. }
  split; [exact H|].
  apply (gate_is_inert_without_super_admin _ Scenario.no_super_admin H).
  repeat constructor.
Defined.

(** ** The migration and a sign-in on the sample databases *)

Lemma migration_is_safe_to_repeat_witness :
  users Sample.directory !! "root" = Some (Sample.person "root@x.com" 1)
  ∧ users (migrate_users Scenario.identities Sample.directory) !! "root"
    = Some (Sample.person "root@x.com" 1)
  ∧ users (migrate_users Scenario.identities Sample.directory) !! "dave"
    = Some (users_row_of Scenario.dave).
Proof.
  assert (H : users Sample.directory !! "root" = Some (Sample.person "root@x.com" 1))
    by reflexivity.
  split; [exact H|].
  destruct (migration_is_safe_to_repeat Scenario.identities Sample.directory)
    as (Hkeep & Hnew & _).
  split; [apply (Hkeep _ _ H)|].
  apply (Hnew "dave" Scenario.dave). reflexivity.
Defined.

Lemma signin_updates_two_columns_witness :
  users Sample.db !! "carol" = Some (Sample.person "carol@x.com" 4)
  ∧ ∃ db1 u1,
      handle_user_signin (Sample.as_user "carol" 30) "carol" Scenario.dave Sample.db
        = Return () db1
      ∧ users db1 !! "carol" = Some u1
      ∧ u_updated_at u1 = 30 ∧ u_email u1 = "carol@x.com".
Proof.
  assert (H : users Sample.db !! "carol" = Some (Sample.person "carol@x.com" 4))
    by reflexivity.
  split; [exact H|].
  destruct (signin_updates_two_columns (Sample.as_user "carol" 30) "carol"
              Scenario.dave Sample.db) as (db1 & Hrun & _ & _ & _ & Hrow).
  destruct (Hrow _ H) as (u1 & Hu1 & _ & Hup & Hemail & _).
  exists db1, u1. split; [exact Hrun|]. split; [exact Hu1|].
  split; [exact Hup|exact Hemail].
Defined.

(** ** The page without its list *)

(** X23. [fetchAdminUsers] never has rows to shape: [get_all_users]
    fails for every caller, so the query function throws and
    [adminUsers] stays undefined. With that value of [adminUsers] the
    modal's [handlePromote] sends nothing to the store, whoever is signed
    in and whatever the target and role: it only tells a signed-in user
    that only super admins can promote. *)
Theorem adminUsers_is_never_loaded (s : session) (db : Db) :
  fetchAdminUsers (get_all_users s db) = None
  ∧ ∀ (s' : session) (search : string → Db → fetch_reply)
      (audit : string → string → string → string → string → option pg_error)
      (user : option string) (userId role : string) (db' : Db),
      run (page_world s' search audit)
          (handlePromote user (fetchAdminUsers (get_all_users s db)) userId role) db'
      = ((), db',
         match user with
         | Some _ =>
             [existT _ (Alert "Only super admins can promote users to admin roles.")]
         | None => []
         end).
Proof.
  assert (H : fetchAdminUsers (get_all_users s db) = None).
  { unfold get_all_users. by rewrite guard_reference_is_ambiguous. }
  split; [exact H|]. intros s' search audit user userId role db'. rewrite H.
  by destruct user.
Qed.
